(** * HOM delay-temperature map acquisition: a shallow embedding

    This development embeds the two Python modules of the repository,
    [meas_dir.py] (GUI counter read-out and statistics) and [hom_scan.py]
    (the temperature / delay sweep), and proves properties of them.

    Conventions of the embedding.
    - Python code that raises is a computation in a state-and-exception
      monad [M S A]; the state is always returned, also when an exception
      propagates, so that what was done before the failure can be observed.
    - External collaborators are oracles and logs: the AutoIt binding is an
      oracle indexed by the number of calls made so far; the serial transport,
      the TC200 session, [time.sleep], [print] and [np.savetxt] append to logs.
      Transport writes, set-point assignments, sleeps, prints and [np.savetxt]
      are taken not to raise.
    - [float] values are idealised: temperatures and durations are rationals,
      the samples and statistics of [meas_dir] are real numbers (rounding of
      float64 arithmetic is not modelled). *)

From Stdlib Require Import ZArith QArith Qround Reals String Ascii List Lia Lra.
From Stdlib Require Import DecimalString DecimalPos.
From stdpp Require Import base list strings.
Import ListNotations.

Set Default Proof Using "Type".

(** ** Exceptions and the state-and-exception monad *)

Inductive Exn : Type :=
| ValueError (msg : string)
| RuntimeError (msg : string)
| KeyError (key : string)
| NameError (name : string)
| IndexError
| OtherException (msg : string).

Inductive result (A : Type) : Type :=
| Ok (a : A)
| Raise (e : Exn).
Arguments Ok {A} a.
Arguments Raise {A} e.

Definition M (S A : Type) : Type := S -> S * result A.

Definition ret {S A} (a : A) : M S A := fun s => (s, Ok a).

Definition raise {S A} (e : Exn) : M S A := fun s => (s, Raise e).

Definition bind {S A B} (c : M S A) (k : A -> M S B) : M S B :=
  fun s => match c s with
           | (s', Ok a) => k a s'
           | (s', Raise e) => (s', Raise e)
           end.

Definition modify {S} (f : S -> S) : M S unit := fun s => (f s, Ok tt).

Definition gets {S A} (f : S -> A) : M S A := fun s => (s, Ok (f s)).

Notation "x <- c ;; k" := (bind c (fun x => k))
  (at level 100, c at next level, right associativity).
Notation "c ;;; k" := (bind c (fun _ => k))
  (at level 100, right associativity).

(** [try: c except Exception as e: h e] *)
Definition try_except {S A} (c : M S A) (h : Exn -> M S A) : M S A :=
  fun s => match c s with
           | (s', Ok a) => (s', Ok a)
           | (s', Raise e) => h e s'
           end.

(** [try: c finally: f].  When [f] raises, its exception replaces the one in
    flight; otherwise the outcome of [c] is kept. *)
Definition try_finally {S A} (c : M S A) (f : M S unit) : M S A :=
  fun s => match c s with
           | (s1, r) => match f s1 with
                        | (s2, Ok _) => (s2, r)
                        | (s2, Raise e) => (s2, Raise e)
                        end
           end.

(** Run a computation on a component of a larger state. *)
Definition zoom {S T A} (get : T -> S) (set : S -> T -> T) (c : M S A) : M T A :=
  fun t => match c (get t) with
           | (s', r) => (set s' t, r)
           end.

(** ** Python text helpers used by [_read_int_field] *)

Module Py.

(** [str.isspace] on the ASCII range. *)
Definition isspace (c : ascii) : bool :=
  let n := nat_of_ascii c in
  ((9 <=? n)%nat && (n <=? 13)%nat) || ((28 <=? n)%nat && (n <=? 32)%nat).

Definition isdigit (c : ascii) : bool :=
  let n := nat_of_ascii c in (48 <=? n)%nat && (n <=? 57)%nat.

Definition digit_value (c : ascii) : Z := Z.of_nat (nat_of_ascii c) - 48.

Fixpoint lstrip (s : list ascii) : list ascii :=
  match s with
  | c :: s' => if isspace c then lstrip s' else s
  | [] => []
  end.

(** [str.strip()] *)
Definition strip (s : list ascii) : list ascii :=
  rev (lstrip (rev (lstrip s))).

(** [str.replace(",", "")] *)
Definition remove_commas (s : list ascii) : list ascii :=
  List.filter (fun c => negb (Ascii.eqb c ","%char)) s.

(** Decimal digits with single underscores between digits, as [int]
    accepts them. [prev] tells whether the previous character was a digit. *)
Fixpoint digits (prev : bool) (acc : Z) (s : list ascii) : option Z :=
  match s with
  | [] => if prev then Some acc else None
  | c :: s' =>
      if isdigit c then digits true (10 * acc + digit_value c) s'
      else if Ascii.eqb c "_"%char then
             (if prev then digits false acc s' else None)
           else None
  end.

(** [int(txt)] in base 10 on ASCII text: surrounding white space, an
    optional sign, then digits. [None] stands for [ValueError]. *)
Definition int (s : list ascii) : option Z :=
  match strip s with
  | "+"%char :: d => digits false 0 d
  | "-"%char :: d => option_map Z.opp (digits false 0 d)
  | d => digits false 0 d
  end.

End Py.

(** ** [meas_dir.py]: GUI counter read-out *)

Module MeasDir.

(** What a call into the AutoIt binding does: it returns or it raises. *)
Inductive WinExistsResult : Type :=
| WinReturns (code : Z)
| WinRaises (e : Exn).

Inductive GetTextResult : Type :=
| TextReturns (txt : string)
| TextRaises (e : Exn).

(** The AutoIt binding as an oracle. The first argument is the number of
    calls of that function made before this one. *)
Record AutoIt : Type := {
  win_exists : nat -> string -> WinExistsResult;
  control_get_text : nat -> string -> string -> GetTextResult
}.

Inductive GuiEvent : Type :=
| EvWinExists (window_spec : string)
| EvGetText (window_spec control_id : string)
| EvSleep (seconds : Q).

(** The part of the world [meas_dir] acts on. *)
Record Gui : Type := {
  gui_trace : list GuiEvent;
  win_checks : nat;
  reads_done : nat
}.

Definition gui0 : Gui := {| gui_trace := []; win_checks := 0; reads_done := 0 |}.

Definition log_event (ev : GuiEvent) (g : Gui) : Gui :=
  {| gui_trace := gui_trace g ++ [ev];
     win_checks := win_checks g;
     reads_done := reads_done g |}.

Definition autoit_win_exists (au : AutoIt) (window_spec : string) : M Gui Z :=
  fun g =>
    let g' := {| gui_trace := gui_trace g ++ [EvWinExists window_spec];
                 win_checks := S (win_checks g);
                 reads_done := reads_done g |} in
    match win_exists au (win_checks g) window_spec with
    | WinReturns code => (g', Ok code)
    | WinRaises e => (g', Raise e)
    end.

Definition autoit_control_get_text (au : AutoIt) (window_spec control_id : string)
  : M Gui string :=
  fun g =>
    let g' := {| gui_trace := gui_trace g ++ [EvGetText window_spec control_id];
                 win_checks := win_checks g;
                 reads_done := S (reads_done g) |} in
    match control_get_text au (reads_done g) window_spec control_id with
    | TextReturns txt => (g', Ok txt)
    | TextRaises e => (g', Raise e)
    end.

Definition time_sleep (seconds : Q) : M Gui unit :=
  modify (log_event (EvSleep seconds)).

(** [str(txt).strip().replace(",", "")] *)
Definition clean (txt : string) : string :=
  string_of_list_ascii
    (Py.remove_commas (Py.strip (list_ascii_of_string txt))).

Definition invalid_literal (txt : string) : Exn :=
  ValueError ("invalid literal for int() with base 10: " ++ txt).

(** [int(txt)], raising [ValueError] on text that is not an integer. *)
Definition py_int (txt : string) : M Gui Z :=
  match Py.int (list_ascii_of_string txt) with
  | Some z => ret z
  | None => raise (invalid_literal txt)
  end.

Definition _read_int_field (au : AutoIt) (window_spec control_id : string) : M Gui Z :=
  txt <- autoit_control_get_text au window_spec control_id ;;
  py_int (clean txt).

(** A [dict] with string keys, as an association list. *)
Definition dict : Type := list (string * string).

Fixpoint dict_get (d : dict) (key : string) : option string :=
  match d with
  | [] => None
  | (k, v) :: d' => if String.eqb k key then Some v else dict_get d' key
  end.

(** [controls[key]] *)
Definition subscript (controls : dict) (key : string) : M Gui string :=
  match dict_get controls key with
  | Some v => ret v
  | None => raise (KeyError key)
  end.

Definition default_window_spec : string :=
  "[Class:WindowsForms10.Window.8.app.0.33c0d9d]".

Definition default_controls : dict :=
  [ ("V", "WindowsForms10.EDIT.app.0.33c0d9d82");
    ("H", "WindowsForms10.EDIT.app.0.33c0d9d83");
    ("C", "WindowsForms10.EDIT.app.0.33c0d9d24") ]%string.

Definition default_sleep_between_reads : Q := 2 # 10.

(** The sanity check on the window:
    [try: if autoit.win_exists(w) == 0: raise RuntimeError(..)
     except Exception: pass] *)
Definition window_check (au : AutoIt) (window_spec : string) : M Gui unit :=
  try_except
    (code <- autoit_win_exists au window_spec ;;
     if (code =? 0)%Z
     then raise (RuntimeError ("Target window not found: " ++ window_spec))
     else ret tt)
    (fun _ => ret tt).

(** The three sample arrays. *)
Record Samples : Type := {
  V_samples : list R;
  H_samples : list R;
  C_samples : list R
}.

(** [np.zeros(times, dtype=float)] *)
Definition np_zeros (n : nat) : list R := replicate n 0%R.

(** The body of the [try] inside the sampling loop, iteration [i]. *)
Definition read_iteration (au : AutoIt) (window_spec : string) (controls : dict)
    (i : nat) (a : Samples) : M Gui Samples :=
  cv <- subscript controls "V" ;;
  v <- _read_int_field au window_spec cv ;;
  let a1 := {| V_samples := <[i := IZR v]> (V_samples a);
               H_samples := H_samples a; C_samples := C_samples a |} in
  ch <- subscript controls "H" ;;
  h <- _read_int_field au window_spec ch ;;
  let a2 := {| V_samples := V_samples a1;
               H_samples := <[i := IZR h]> (H_samples a1);
               C_samples := C_samples a1 |} in
  cc <- subscript controls "C" ;;
  c <- _read_int_field au window_spec cc ;;
  ret {| V_samples := V_samples a2; H_samples := H_samples a2;
         C_samples := <[i := IZR c]> (C_samples a2) |}.

(** [except KeyError as e: raise RuntimeError(..) from e]; other exceptions
    propagate unchanged. *)
Definition on_key_error (e : Exn) : M Gui Samples :=
  match e with
  | KeyError key => raise (RuntimeError ("Missing control mapping for key: " ++ key))
  | _ => raise e
  end.

(** [for i in range(times)], from iteration [i] with [n] iterations left. *)
Fixpoint sample_loop (au : AutoIt) (window_spec : string) (controls : dict)
    (sleep_between_reads : Q) (n i : nat) (a : Samples) : M Gui Samples :=
  match n with
  | O => ret a
  | S n' =>
      a' <- try_except (read_iteration au window_spec controls i a) on_key_error ;;
      time_sleep sleep_between_reads ;;;
      sample_loop au window_spec controls sleep_between_reads n' (S i) a'
  end.

Definition Rsum (a : list R) : R := fold_right Rplus 0%R a.

(** [np.mean(a)]: the sum over the number of elements. *)
Definition np_mean (a : list R) : R := (Rsum a / INR (length a))%R.

(** [np.std(a)] with its default [ddof=0]: the square root of the mean of
    the squared deviations from the mean. *)
Definition np_std (a : list R) : R :=
  let arrmean := np_mean a in
  let x := map (fun v => (v - arrmean)%R) a in
  let x2 := map (fun d => (d * d)%R) x in
  let rcount := INR (length a - 0) in
  sqrt (Rsum x2 / rcount).

Definition Reading : Type := (R * R * R * R * R * R)%type.

Definition meas_dir (au : AutoIt) (times : Z) (window_spec : string)
    (controls : option dict) (sleep_between_reads : Q) : M Gui Reading :=
  if (times <=? 0)%Z then raise (ValueError "times must be a positive integer")
  else
    let controls := match controls with
                    | None => default_controls
                    | Some d => d
                    end in
    window_check au window_spec ;;;
    let n := Z.to_nat times in
    a <- sample_loop au window_spec controls sleep_between_reads n 0
           {| V_samples := np_zeros n; H_samples := np_zeros n;
              C_samples := np_zeros n |} ;;
    ret (np_mean (V_samples a), np_mean (H_samples a), np_mean (C_samples a),
         np_std (V_samples a), np_std (H_samples a), np_std (C_samples a)).

(** [meas_dir(times)] with every keyword argument at its default. *)
Definition meas_dir_defaults (au : AutoIt) (times : Z) : M Gui Reading :=
  meas_dir au times default_window_spec None default_sleep_between_reads.

End MeasDir.

(** ** Numeric helpers of Python and numpy used by [hom_scan.py] *)

Module Np.

(** [round(x)]: to the nearest integer, ties to the even one. *)
Definition py_round (x : Q) : Z :=
  let f := Qfloor x in
  match Qcompare (x - inject_Z f) (1 # 2) with
  | Lt => f
  | Gt => (f + 1)%Z
  | Eq => if Z.even f then f else (f + 1)%Z
  end.

(** [int(x)] on a float: truncation towards zero. *)
Definition py_int_of_float (x : Q) : Z :=
  if Qle_bool 0 x then Qfloor x else Qceiling x.

(** The number of elements of [np.arange(start, stop, step)]:
    [ceil((stop - start) / step)], and none when that is negative. *)
Definition arange_len (start stop step : Q) : nat :=
  Z.to_nat (Qceiling ((stop - start) / step)).

(** [np.arange(start, stop, step)] (for a non-zero [step]). *)
Definition arange (start stop step : Q) : list Q :=
  map (fun i : nat => Qred (start + inject_Z (Z.of_nat i) * step))
      (seq 0 (arange_len start stop step)).

(** [round(x, 1)], as the number of tenths. *)
Definition round1_tenths (x : Q) : Z := py_round (x * 10).

(** The text of [round(x, 1)] in an f-string: sign, integer part, a dot and
    one decimal (values below 1e16 in magnitude). *)
Definition round1_repr (x : Q) : string :=
  let t := Z.abs_N (round1_tenths x) in
  ((if Qle_bool 0 x then "" else "-")
     ++ NilZero.string_of_uint (N.to_uint (t / 10))
     ++ "."
     ++ NilZero.string_of_uint (N.to_uint (t mod 10)))%string.

End Np.

(** ** [hom_scan.py]: the sweep *)

Module HomScan.

(** A [BinaryCommand(device_number, command_number[, data])]. *)
Record Frame : Type := BinaryCommand {
  deviceId : Z;
  commandCode : Z;
  payload : option Z
}.

(** Attribute assignments on the TC200 handle. *)
Inductive TcCall : Type :=
| TcSetP (v : Z)
| TcSetI (v : Z)
| TcSetD (v : Z)
| TcSetEnable (b : bool)
| TcSetTemperature (setpoint_c : Q).

(** The messages the script prints. Numbers formatted into a message are
    kept as arguments. *)
Inductive Msg : Type :=
| MsgBanner
| MsgZaberOpening
| MsgLutLoading
| MsgLutMissing
| MsgTcOpening
| MsgTcInitial (t_init : Q)
| MsgTcSetpoint (setpoint_c stabilize_s : Q)
| MsgHoming
| MsgHomeDone
| MsgMeasuring
| MsgProgress (jj : nat)
| MsgSaved (path : string)
| MsgLineElapsed
| MsgZaberClosed
| MsgZaberCloseError (e : Exn)
| MsgTcNoExplicitClose
| MsgTcCloseError (e : Exn)
| MsgTotalElapsed.

(** A text file as [np.savetxt] leaves it: its path and its lines. *)
Record SavedFile : Type := {
  path : string;
  content : list string
}.

(** The module-level constants. *)
Record Config : Type := {
  T_START : Q;
  T_STOP : Q;
  T_STEP : Q;
  N_PAS_COUNTS : Q;
  STEP_COUNTS : Q;
  STAGE_SETTLE_S : Q;
  TEMP_STABILIZE_S : Q;
  PRE_LOOP_SLEEP_S : Q;
  PRE_SCAN_HOME_WAIT : Q;
  MEAS_SECONDS : Z
}.

(** The constants as the script sets them. [N_PAS_COUNTS] is
    [25.4 / 0.047625 * 1_000], that is 1600000/3. *)
Definition reference : Config := {|
  T_START := 45;
  T_STOP := 75;
  T_STEP := 2 # 10;
  N_PAS_COUNTS := (254 # 10) / (47625 # 1000000) * 1000;
  STEP_COUNTS := 10000;
  STAGE_SETTLE_S := 1;
  TEMP_STABILIZE_S := 60;
  PRE_LOOP_SLEEP_S := 5;
  PRE_SCAN_HOME_WAIT := 10;
  MEAS_SECONDS := 5
|}.

(** [N_GRID = int(round(N_PAS_COUNTS / STEP_COUNTS) + 1)] *)
Definition N_GRID (cfg : Config) : Z :=
  (Np.py_round (N_PAS_COUNTS cfg / STEP_COUNTS cfg) + 1)%Z.

(** [Y_COUNTS = np.arange(0, N_PAS_COUNTS, STEP_COUNTS)] *)
Definition Y_COUNTS (cfg : Config) : list Q :=
  Np.arange 0 (N_PAS_COUNTS cfg) (STEP_COUNTS cfg).

(** [T_vec = np.arange(T_START, T_STOP, T_STEP)] *)
Definition T_vec (cfg : Config) : list Q :=
  Np.arange (T_START cfg) (T_STOP cfg) (T_STEP cfg).

Definition OUTPUT_DIR : string := "11th waist".

(** [OUTPUT_DIR / f"{round(tset, 1)}_pump_ha_det_txikienaena_01.dat"] *)
Definition out_path (tset : Q) : string :=
  (OUTPUT_DIR ++ "/" ++ Np.round1_repr tset ++ "_pump_ha_det_txikienaena_01.dat")%string.

(** What the hardware does that the script cannot decide: the AutoIt
    binding, whether [lut_T.xlsx] exists, and what [BinarySerial.close]
    raises, if anything. *)
Record Hardware : Type := {
  autoit : MeasDir.AutoIt;
  lut_exists : bool;
  close_raises : option Exn
}.

Section Sweep.

(** The type of the channel values, its zero, and the number format of
    [np.savetxt]. *)
Context {F : Type} (zero : F) (fmt : F -> string).

Definition Reading : Type := (F * F * F * F * F * F)%type.

(** The names [measure_point] looks up in the module's namespace when it
    is called. The script imports [meas_dir] and calls [meas_dir_1sec]. *)
Record Namespace : Type := {
  meas_dir_1sec : option (Z -> M MeasDir.Gui Reading)
}.

(** The six line arrays, each of shape [(N_GRID, 1)]. *)
Record Buffers : Type := {
  line_V : list F;
  line_H : list F;
  line_C : list F;
  line_eV : list F;
  line_eH : list F;
  line_eC : list F
}.

(** The state of a run: the logs of the collaborators and the local
    variables of [main]. *)
Record Lab : Type := {
  gui : MeasDir.Gui;
  frames : list Frame;
  zaber_open : bool;
  close_calls : nat;
  tc_calls : list TcCall;
  tc_open : bool;
  sleeps : list Q;
  stdout : list Msg;
  files : list SavedFile;
  lines : Buffers;
  jj : nat
}.

Definition set_line_V (x : list F) (b : Buffers) : Buffers :=
  {| line_V := x; line_H := line_H b; line_C := line_C b; line_eV := line_eV b; line_eH := line_eH b; line_eC := line_eC b |}.

Definition set_line_H (x : list F) (b : Buffers) : Buffers :=
  {| line_V := line_V b; line_H := x; line_C := line_C b; line_eV := line_eV b; line_eH := line_eH b; line_eC := line_eC b |}.

Definition set_line_C (x : list F) (b : Buffers) : Buffers :=
  {| line_V := line_V b; line_H := line_H b; line_C := x; line_eV := line_eV b; line_eH := line_eH b; line_eC := line_eC b |}.

Definition set_line_eV (x : list F) (b : Buffers) : Buffers :=
  {| line_V := line_V b; line_H := line_H b; line_C := line_C b; line_eV := x; line_eH := line_eH b; line_eC := line_eC b |}.

Definition set_line_eH (x : list F) (b : Buffers) : Buffers :=
  {| line_V := line_V b; line_H := line_H b; line_C := line_C b; line_eV := line_eV b; line_eH := x; line_eC := line_eC b |}.

Definition set_line_eC (x : list F) (b : Buffers) : Buffers :=
  {| line_V := line_V b; line_H := line_H b; line_C := line_C b; line_eV := line_eV b; line_eH := line_eH b; line_eC := x |}.

Definition set_gui (x : MeasDir.Gui) (w : Lab) : Lab :=
  {| gui := x; frames := frames w; zaber_open := zaber_open w; close_calls := close_calls w; tc_calls := tc_calls w; tc_open := tc_open w; sleeps := sleeps w; stdout := stdout w; files := files w; lines := lines w; jj := jj w |}.

Definition set_frames (x : list Frame) (w : Lab) : Lab :=
  {| gui := gui w; frames := x; zaber_open := zaber_open w; close_calls := close_calls w; tc_calls := tc_calls w; tc_open := tc_open w; sleeps := sleeps w; stdout := stdout w; files := files w; lines := lines w; jj := jj w |}.

Definition set_zaber_open (x : bool) (w : Lab) : Lab :=
  {| gui := gui w; frames := frames w; zaber_open := x; close_calls := close_calls w; tc_calls := tc_calls w; tc_open := tc_open w; sleeps := sleeps w; stdout := stdout w; files := files w; lines := lines w; jj := jj w |}.

Definition set_close_calls (x : nat) (w : Lab) : Lab :=
  {| gui := gui w; frames := frames w; zaber_open := zaber_open w; close_calls := x; tc_calls := tc_calls w; tc_open := tc_open w; sleeps := sleeps w; stdout := stdout w; files := files w; lines := lines w; jj := jj w |}.

Definition set_tc_calls (x : list TcCall) (w : Lab) : Lab :=
  {| gui := gui w; frames := frames w; zaber_open := zaber_open w; close_calls := close_calls w; tc_calls := x; tc_open := tc_open w; sleeps := sleeps w; stdout := stdout w; files := files w; lines := lines w; jj := jj w |}.

Definition set_tc_open (x : bool) (w : Lab) : Lab :=
  {| gui := gui w; frames := frames w; zaber_open := zaber_open w; close_calls := close_calls w; tc_calls := tc_calls w; tc_open := x; sleeps := sleeps w; stdout := stdout w; files := files w; lines := lines w; jj := jj w |}.

Definition set_sleeps (x : list Q) (w : Lab) : Lab :=
  {| gui := gui w; frames := frames w; zaber_open := zaber_open w; close_calls := close_calls w; tc_calls := tc_calls w; tc_open := tc_open w; sleeps := x; stdout := stdout w; files := files w; lines := lines w; jj := jj w |}.

Definition set_stdout (x : list Msg) (w : Lab) : Lab :=
  {| gui := gui w; frames := frames w; zaber_open := zaber_open w; close_calls := close_calls w; tc_calls := tc_calls w; tc_open := tc_open w; sleeps := sleeps w; stdout := x; files := files w; lines := lines w; jj := jj w |}.

Definition set_files (x : list SavedFile) (w : Lab) : Lab :=
  {| gui := gui w; frames := frames w; zaber_open := zaber_open w; close_calls := close_calls w; tc_calls := tc_calls w; tc_open := tc_open w; sleeps := sleeps w; stdout := stdout w; files := x; lines := lines w; jj := jj w |}.

Definition set_lines (x : Buffers) (w : Lab) : Lab :=
  {| gui := gui w; frames := frames w; zaber_open := zaber_open w; close_calls := close_calls w; tc_calls := tc_calls w; tc_open := tc_open w; sleeps := sleeps w; stdout := stdout w; files := files w; lines := x; jj := jj w |}.

Definition set_jj (x : nat) (w : Lab) : Lab :=
  {| gui := gui w; frames := frames w; zaber_open := zaber_open w; close_calls := close_calls w; tc_calls := tc_calls w; tc_open := tc_open w; sleeps := sleeps w; stdout := stdout w; files := files w; lines := lines w; jj := x |}.

Definition empty_buffers : Buffers :=
  {| line_V := []; line_H := []; line_C := [];
     line_eV := []; line_eH := []; line_eC := [] |}.

Definition lab0 : Lab :=
  {| gui := MeasDir.gui0; frames := []; zaber_open := false; close_calls := 0;
     tc_calls := []; tc_open := false; sleeps := []; stdout := []; files := [];
     lines := empty_buffers; jj := 0 |}.

Definition print (m : Msg) : M Lab unit :=
  modify (fun w => set_stdout (stdout w ++ [m]) w).

Definition time_sleep (seconds : Q) : M Lab unit :=
  modify (fun w => set_sleeps (sleeps w ++ [seconds]) w).

(** [serial_port.write(cmd)] *)
Definition serial_write (cmd : Frame) : M Lab unit :=
  modify (fun w => set_frames (frames w ++ [cmd]) w).

Definition tc_assign (c : TcCall) : M Lab unit :=
  modify (fun w => set_tc_calls (tc_calls w ++ [c]) w).

Definition init_temperature_controller : M Lab unit :=
  modify (set_tc_open true) ;;;
  tc_assign (TcSetP 120) ;;;
  tc_assign (TcSetI 60) ;;;
  tc_assign (TcSetD 30) ;;;
  tc_assign (TcSetEnable true).

Definition set_and_wait_temperature (setpoint_c stabilize_s : Q) : M Lab unit :=
  tc_assign (TcSetTemperature setpoint_c) ;;;
  print (MsgTcSetpoint setpoint_c stabilize_s) ;;;
  time_sleep stabilize_s.

Definition zaber_write (device_number command_number : Z) (data : option Z)
  : M Lab unit :=
  let cmd := match data with
             | None => BinaryCommand device_number command_number None
             | Some d => BinaryCommand device_number command_number (Some d)
             end in
  serial_write cmd.

Definition home_stage (cfg : Config) : M Lab unit :=
  print MsgHoming ;;;
  zaber_write 0 1 None ;;;
  time_sleep (PRE_SCAN_HOME_WAIT cfg) ;;;
  print MsgHomeDone.

Definition move_stage_abs (counts : Z) (settle_s : Q) : M Lab unit :=
  zaber_write 0 20 (Some counts) ;;;
  time_sleep settle_s.

(** [meas_dir_1sec(MEAS_SECONDS)], the name resolved at the call. *)
Definition measure_point (ns : Namespace) (cfg : Config) : M Lab Reading :=
  match meas_dir_1sec ns with
  | None => raise (NameError "meas_dir_1sec")
  | Some f => zoom gui set_gui (f (MEAS_SECONDS cfg))
  end.

(** [np.zeros((n, 1))] *)
Definition np_zeros (n : Z) : M Lab (list F) :=
  if (n <? 0)%Z then raise (ValueError "negative dimensions are not allowed")
  else ret (replicate (Z.to_nat n) zero).

(** [line.fill(0)] *)
Definition fill0 (l : list F) : list F := replicate (length l) zero.

(** [line[jj, 0] = v] on the array selected by [get] and [set]. *)
Definition store (get : Buffers -> list F) (set : list F -> Buffers -> Buffers)
    (v : F) : M Lab unit :=
  fun w =>
    if (jj w <? length (get (lines w)))%nat
    then (set_lines (set (<[jj w := v]> (get (lines w))) (lines w)) w, Ok tt)
    else (w, Raise IndexError).

(** The body of [for pos_counts in Y_COUNTS]. *)
Definition delay_step (ns : Namespace) (cfg : Config) (pos_counts : Q) : M Lab unit :=
  move_stage_abs (Np.py_int_of_float pos_counts) (STAGE_SETTLE_S cfg) ;;;
  r <- measure_point ns cfg ;;
  let '(V, H, C, eV, eH, eC) := r in
  store line_V set_line_V V ;;;
  store line_H set_line_H H ;;;
  store line_C set_line_C C ;;;
  store line_eV set_line_eV eV ;;;
  store line_eH set_line_eH eH ;;;
  store line_eC set_line_eC eC ;;;
  j <- gets jj ;;
  print (MsgProgress j) ;;;
  modify (fun w => set_jj (S (jj w)) w).

Fixpoint for_each {A : Type} (xs : list A) (body : A -> M Lab unit) : M Lab unit :=
  match xs with
  | [] => ret tt
  | x :: xs' => body x ;;; for_each xs' body
  end.

(** [np.vstack(data_tuple).T]: row [i] holds the [i]-th element of each
    of the six columns. *)
Fixpoint vstack_T (v h c ev eh ec : list F) : list (list F) :=
  match v, h, c, ev, eh, ec with
  | a1 :: v', a2 :: h', a3 :: c', a4 :: ev', a5 :: eh', a6 :: ec' =>
      [a1; a2; a3; a4; a5; a6] :: vstack_T v' h' c' ev' eh' ec'
  | _, _, _, _, _, _ => []
  end.

Fixpoint join (delimiter : string) (cells : list string) : string :=
  match cells with
  | [] => ""
  | [c] => c
  | c :: cells' => (c ++ delimiter ++ join delimiter cells')%string
  end.

(** [np.savetxt(path, X, delimiter=.., header=.., comments=..)]: the
    header line, prefixed by [comments], then one line per row; the footer
    is left at its default and adds nothing. *)
Definition np_savetxt (out : string) (X : list (list F))
    (delimiter header comments : string) : M Lab unit :=
  let file := {| path := out;
                 content := (comments ++ header)%string
                              :: map (fun row => join delimiter (map fmt row)) X |} in
  modify (fun w => set_files (files w ++ [file]) w).

Definition reset_lines (b : Buffers) : Buffers :=
  {| line_V := fill0 (line_V b); line_H := fill0 (line_H b);
     line_C := fill0 (line_C b); line_eV := fill0 (line_eV b);
     line_eH := fill0 (line_eH b); line_eC := fill0 (line_eC b) |}.

(** The body of [for tset in T_vec]. *)
Definition temperature_line (ns : Namespace) (cfg : Config) (tset : Q) : M Lab unit :=
  home_stage cfg ;;;
  set_and_wait_temperature tset (TEMP_STABILIZE_S cfg) ;;;
  print MsgMeasuring ;;;
  modify (set_jj 0) ;;;
  modify (fun w => set_lines (reset_lines (lines w)) w) ;;;
  for_each (Y_COUNTS cfg) (delay_step ns cfg) ;;;
  b <- gets lines ;;
  np_savetxt (out_path tset)
    (vstack_T (line_V b) (line_H b) (line_C b) (line_eV b) (line_eH b) (line_eC b))
    "," "V,H,C,eV,eH,eC" "" ;;;
  print (MsgSaved (out_path tset)) ;;;
  print MsgLineElapsed.

(** The body of the [try] of [main]. *)
Definition sweep (ns : Namespace) (cfg : Config) : M Lab unit :=
  for_each (T_vec cfg) (temperature_line ns cfg).

(** [BinarySerial.close(port_y)] *)
Definition serial_close (hw : Hardware) : M Lab unit :=
  fun w =>
    let w' := set_close_calls (S (close_calls w)) w in
    match close_raises hw with
    | None => (set_zaber_open false w', Ok tt)
    | Some e => (w', Raise e)
    end.

(** The [finally] block of [main]: close the Zaber port, reporting a
    failure, then print the note on the TC200, which has no close call. *)
Definition teardown (hw : Hardware) : M Lab unit :=
  try_except
    (serial_close hw ;;; print MsgZaberClosed)
    (fun e => print (MsgZaberCloseError e)) ;;;
  try_except
    (print MsgTcNoExplicitClose)
    (fun e => print (MsgTcCloseError e)).

(** What [main] does before its [try]. *)
Definition prepare (cfg : Config) (hw : Hardware) : M Lab unit :=
  print MsgBanner ;;;
  print MsgZaberOpening ;;;
  modify (set_zaber_open true) ;;;
  time_sleep (PRE_LOOP_SLEEP_S cfg) ;;;
  (if lut_exists hw then print MsgLutLoading else print MsgLutMissing) ;;;
  print MsgTcOpening ;;;
  init_temperature_controller ;;;
  print (MsgTcInitial (T_START cfg)) ;;;
  tc_assign (TcSetTemperature (T_START cfg)) ;;;
  v <- np_zeros (N_GRID cfg) ;;
  h <- np_zeros (N_GRID cfg) ;;
  c <- np_zeros (N_GRID cfg) ;;
  ev <- np_zeros (N_GRID cfg) ;;
  eh <- np_zeros (N_GRID cfg) ;;
  ec <- np_zeros (N_GRID cfg) ;;
  modify (set_lines {| line_V := v; line_H := h; line_C := c;
                       line_eV := ev; line_eH := eh; line_eC := ec |}).

(** The [try ... finally] of [main]. *)
Definition guarded_sweep (ns : Namespace) (cfg : Config) (hw : Hardware) : M Lab unit :=
  try_finally (sweep ns cfg) (teardown hw).

Definition main (ns : Namespace) (cfg : Config) (hw : Hardware) : M Lab unit :=
  prepare cfg hw ;;;
  guarded_sweep ns cfg hw ;;;
  print MsgTotalElapsed.

End Sweep.

Arguments Namespace F : clear implicits.
Arguments Buffers F : clear implicits.
Arguments Lab F : clear implicits.

(** The namespace of the module as the script builds it: [meas_dir] is
    imported, [meas_dir_1sec] is bound nowhere. *)
Definition as_written {F : Type} : Namespace F := {| meas_dir_1sec := None |}.

(** A namespace in which [meas_dir_1sec] is the given function. *)
Definition with_meas {F : Type} (f : Z -> M MeasDir.Gui (F * F * F * F * F * F))
  : Namespace F := {| meas_dir_1sec := Some f |}.

End HomScan.

(** ** Test doubles: small configurations and scripted collaborators *)

Module Fixtures.

Import HomScan.

(** Two set points (45.0 and 45.2) and three delay positions. *)
Definition small : Config := {|
  T_START := 45;
  T_STOP := 454 # 10;
  T_STEP := 2 # 10;
  N_PAS_COUNTS := 24000;
  STEP_COUNTS := 10000;
  STAGE_SETTLE_S := 1;
  TEMP_STABILIZE_S := 60;
  PRE_LOOP_SLEEP_S := 5;
  PRE_SCAN_HOME_WAIT := 10;
  MEAS_SECONDS := 5
|}.

(** A travel of 16000 counts in steps of 10000: two positions. *)
Definition uneven : Config := {|
  T_START := 45;
  T_STOP := 452 # 10;
  T_STEP := 2 # 10;
  N_PAS_COUNTS := 16000;
  STEP_COUNTS := 10000;
  STAGE_SETTLE_S := 1;
  TEMP_STABILIZE_S := 60;
  PRE_LOOP_SLEEP_S := 5;
  PRE_SCAN_HOME_WAIT := 10;
  MEAS_SECONDS := 5
|}.

(** A travel of exactly two steps of 10000 counts. *)
Definition even_travel : Config := {|
  T_START := 45;
  T_STOP := 452 # 10;
  T_STEP := 2 # 10;
  N_PAS_COUNTS := 20000;
  STEP_COUNTS := 10000;
  STAGE_SETTLE_S := 1;
  TEMP_STABILIZE_S := 60;
  PRE_LOOP_SLEEP_S := 5;
  PRE_SCAN_HOME_WAIT := 10;
  MEAS_SECONDS := 5
|}.

(** A GUI whose window is reported with code [code] and whose [k]-th read
    returns the [k]-th text of [texts], and [dflt] past their end. *)
Definition scripted (code : Z) (texts : list string) (dflt : string) : MeasDir.AutoIt := {|
  MeasDir.win_exists := fun _ _ => MeasDir.WinReturns code;
  MeasDir.control_get_text := fun k _ _ => MeasDir.TextReturns (nth k texts dflt)
|}.

Definition bench (au : MeasDir.AutoIt) (close : option Exn) : Hardware := {|
  autoit := au;
  lut_exists := false;
  close_raises := close
|}.

(** A measurement that always yields V=10, H=10, C=5 with no spread. *)
Definition steady (_ : Z) : M MeasDir.Gui (Z * Z * Z * Z * Z * Z) :=
  ret (10, 10, 5, 0, 0, 0)%Z.

(** A measurement that counts its calls in [reads_done] and raises
    [ValueError] on call number [k] (from 0). *)
Definition failing_at (k : nat) (_ : Z) : M MeasDir.Gui (Z * Z * Z * Z * Z * Z) :=
  fun g =>
    let g' := {| MeasDir.gui_trace := MeasDir.gui_trace g;
                 MeasDir.win_checks := MeasDir.win_checks g;
                 MeasDir.reads_done := S (MeasDir.reads_done g) |} in
    if (MeasDir.reads_done g =? k)%nat
    then (g', Raise (MeasDir.invalid_literal "n/a"))
    else (g', Ok (10, 10, 5, 0, 0, 0)%Z).

Definition zfmt (z : Z) : string := NilZero.string_of_int (Z.to_int z).

(** A bench whose GUI always shows 10 and whose port closes cleanly. *)
Definition quiet : Hardware := bench (scripted 1 [] "10") None.

(** The state of a run on [small] when its [try] is entered. *)
Definition allocated : Lab Z := fst (prepare 0%Z small quiet lab0).

(** The state of a run on [even_travel] when its [try] is entered. *)
Definition allocated_even : Lab Z := fst (prepare 0%Z even_travel quiet lab0).

(** The state at the end of a complete run on [small] with [steady]
    measurements: the line arrays hold the readings of the last line. *)
Definition used : Lab Z :=
  fst (main 0%Z zfmt (with_meas steady) small quiet lab0).

End Fixtures.


(** ** Vocabulary of the statements *)

Module Stats.

Import MeasDir.

(** The scalar the reading source supplies at read number [k], when it
    returns text that [_read_int_field] can turn into an integer. *)
Definition supplied (au : AutoIt) (k : nat) (window_spec control_id : string)
  : option Z :=
  match control_get_text au k window_spec control_id with
  | TextReturns txt => Py.int (list_ascii_of_string (clean txt))
  | TextRaises _ => None
  end.

(** The state of the GUI after one more read of [control_id]. *)
Definition after_read (window_spec control_id : string) (g : Gui) : Gui :=
  {| gui_trace := gui_trace g ++ [EvGetText window_spec control_id];
     win_checks := win_checks g;
     reads_done := S (reads_done g) |}.

(** The state of the GUI after the window check. *)
Definition after_window_check (window_spec : string) (g : Gui) : Gui :=
  {| gui_trace := gui_trace g ++ [EvWinExists window_spec];
     win_checks := S (win_checks g);
     reads_done := reads_done g |}.

(** The state after an iteration whose three reads returned. *)
Definition after_iteration (window_spec cv ch cc : string) (g : Gui) : Gui :=
  after_read window_spec cc (after_read window_spec ch (after_read window_spec cv g)).


(** The [controls] argument with its default filled in. *)
Definition effective (controls : option dict) : dict :=
  match controls with
  | None => default_controls
  | Some d => d
  end.




(** The events of one sampling iteration that runs to its end. *)
Definition iteration_events (window_spec cv ch cc : string) (delay : Q)
  : list GuiEvent :=
  [EvGetText window_spec cv; EvGetText window_spec ch;
   EvGetText window_spec cc; EvSleep delay].

Definition is_sleep (ev : GuiEvent) : bool :=
  match ev with
  | EvSleep _ => true
  | _ => false
  end.

End Stats.

Module Lines.

Import HomScan.

Definition home_frame : Frame := BinaryCommand 0 1 None.

Definition move_frame (pos_counts : Q) : Frame :=
  BinaryCommand 0 20 (Some (Np.py_int_of_float pos_counts)).

(** The message the teardown prints for the Zaber port. *)
Definition zaber_report (hw : Hardware) : Msg :=
  match close_raises hw with
  | None => MsgZaberClosed
  | Some e => MsgZaberCloseError e
  end.

Section WithValues.

Context {F : Type}.

(** All six line arrays have [n] rows. *)
Definition sized (n : nat) (b : Buffers F) : Prop :=
  length (line_V b) = n /\ length (line_H b) = n /\ length (line_C b) = n /\
  length (line_eV b) = n /\ length (line_eH b) = n /\ length (line_eC b) = n.

(** Row [i] of the six line arrays holds [x] wherever it exists. *)
Definition row_is (x : F) (b : Buffers F) (i : nat) : Prop :=
  line_V b !! i = Some x /\ line_H b !! i = Some x /\ line_C b !! i = Some x /\
  line_eV b !! i = Some x /\ line_eH b !! i = Some x /\ line_eC b !! i = Some x.

(** The six line arrays, in the column order of the output file. *)
Definition columns (b : Buffers F) : list (list F) :=
  [line_V b; line_H b; line_C b; line_eV b; line_eH b; line_eC b].

(** The line arrays with the reading [r] stored at row [i]. *)
Definition put (i : nat) (r : F * F * F * F * F * F) (b : Buffers F) : Buffers F :=
  let '(V, H, C, eV, eH, eC) := r in
  {| line_V := <[i := V]> (line_V b); line_H := <[i := H]> (line_H b);
     line_C := <[i := C]> (line_C b); line_eV := <[i := eV]> (line_eV b);
     line_eH := <[i := eH]> (line_eH b); line_eC := <[i := eC]> (line_eC b) |}.

(** The readings [rs] stored at rows [i], [i+1], ... *)
Fixpoint record_all (i : nat) (rs : list (F * F * F * F * F * F)) (b : Buffers F)
  : Buffers F :=
  match rs with
  | [] => b
  | r :: rs' => record_all (S i) rs' (put i r b)
  end.

(** The state after the move to [pos_counts] and its settling wait. *)
Definition moved (cfg : Config) (pos_counts : Q) (w : Lab F) : Lab F :=
  set_sleeps (sleeps w ++ [STAGE_SETTLE_S cfg])
    (set_frames (frames w ++ [move_frame pos_counts]) w).

(** The state after the reading [r] is stored, reported and counted. *)
Definition recorded (r : F * F * F * F * F * F) (w : Lab F) : Lab F :=
  set_jj (S (jj w))
    (set_stdout (stdout w ++ [MsgProgress (jj w)])
       (set_lines (put (jj w) r (lines w)) w)).

(** The state at the top of the delay loop of the line at [tset]. *)
Definition line_start (zero : F) (cfg : Config) (tset : Q) (w : Lab F) : Lab F :=
  {| gui := gui w;
     frames := frames w ++ [home_frame];
     zaber_open := zaber_open w;
     close_calls := close_calls w;
     tc_calls := tc_calls w ++ [TcSetTemperature tset];
     tc_open := tc_open w;
     sleeps := sleeps w ++ [PRE_SCAN_HOME_WAIT cfg; TEMP_STABILIZE_S cfg];
     stdout := stdout w ++ [MsgHoming; MsgHomeDone;
                            MsgTcSetpoint tset (TEMP_STABILIZE_S cfg); MsgMeasuring];
     files := files w;
     lines := reset_lines zero (lines w);
     jj := 0 |}.


(** The output file of the line at [tset] with the data rows [rows]. *)
Definition line_file (fmt : F -> string) (tset : Q) (rows : list (list F)) : SavedFile :=
  {| path := out_path tset;
     content := "V,H,C,eV,eH,eC"%string :: map (fun row => join "," (map fmt row)) rows |}.

(** The state after the line arrays are saved for [tset]. *)
Definition saved (fmt : F -> string) (tset : Q) (w : Lab F) : Lab F :=
  set_stdout (stdout w ++ [MsgSaved (out_path tset); MsgLineElapsed])
    (set_files
       (files w ++
          [line_file fmt tset
             (vstack_T (line_V (lines w)) (line_H (lines w)) (line_C (lines w))
                (line_eV (lines w)) (line_eH (lines w)) (line_eC (lines w)))])
       w).

(** The readings of [n] successive measurements started on [g]; the list
    stops at the first measurement that raises. *)
Fixpoint measured (f : M MeasDir.Gui (F * F * F * F * F * F)) (n : nat) (g : MeasDir.Gui)
  : list (F * F * F * F * F * F) :=
  match n with
  | O => []
  | S n' => match f g with
            | (g', Ok r) => r :: measured f n' g'
            | (_, Raise _) => []
            end
  end.

(** The six values of a reading. *)
Definition rV (r : F * F * F * F * F * F) : F := let '(V, _, _, _, _, _) := r in V.
Definition rH (r : F * F * F * F * F * F) : F := let '(_, H, _, _, _, _) := r in H.
Definition rC (r : F * F * F * F * F * F) : F := let '(_, _, C, _, _, _) := r in C.
Definition reV (r : F * F * F * F * F * F) : F := let '(_, _, _, eV, _, _) := r in eV.
Definition reH (r : F * F * F * F * F * F) : F := let '(_, _, _, _, eH, _) := r in eH.
Definition reC (r : F * F * F * F * F * F) : F := let '(_, _, _, _, _, eC) := r in eC.

(** The readings of [n] successive calls of [measure_point]. *)
Definition readings (ns : Namespace F) (cfg : Config) (n : nat) (g : MeasDir.Gui)
  : list (F * F * F * F * F * F) :=
  match meas_dir_1sec ns with
  | Some f => measured (f (MEAS_SECONDS cfg)) n g
  | None => []
  end.

(** Why a measurement can fail with [e]: the name is unbound, or the
    function bound to it raises [e]. *)
Definition measurement_raises (ns : Namespace F) (cfg : Config) (e : Exn) : Prop :=
  (meas_dir_1sec ns = None /\ e = NameError "meas_dir_1sec") \/
  (exists f g, meas_dir_1sec ns = Some f /\ snd (f (MEAS_SECONDS cfg) g) = Raise e).

Definition cells (r : F * F * F * F * F * F) : list F :=
  let '(V, H, C, eV, eH, eC) := r in [V; H; C; eV; eH; eC].

(** The text of one data row of an output file. *)
Definition row_text (fmt : F -> string) (r : F * F * F * F * F * F) : string :=
  join "," (map fmt (cells r)).

End WithValues.

End Lines.

(** ** Decimal text *)

Module Decimals.

(** The plain decimal text of an integer, as a counter shows it. *)
Definition decimal (z : Z) : string := NilZero.string_of_int (Z.to_int z).

(** The value of a run of decimal digits read after a prefix worth [acc]. *)
Fixpoint uint_acc (d : Decimal.uint) (acc : Z) : Z :=
  match d with
  | Decimal.Nil => acc
  | Decimal.D0 l => uint_acc l (10 * acc + 0)
  | Decimal.D1 l => uint_acc l (10 * acc + 1)
  | Decimal.D2 l => uint_acc l (10 * acc + 2)
  | Decimal.D3 l => uint_acc l (10 * acc + 3)
  | Decimal.D4 l => uint_acc l (10 * acc + 4)
  | Decimal.D5 l => uint_acc l (10 * acc + 5)
  | Decimal.D6 l => uint_acc l (10 * acc + 6)
  | Decimal.D7 l => uint_acc l (10 * acc + 7)
  | Decimal.D8 l => uint_acc l (10 * acc + 8)
  | Decimal.D9 l => uint_acc l (10 * acc + 9)
  end.

(** No character of [s] is white space. *)
Definition no_space (s : list ascii) : Prop :=
  Forall (fun c => Py.isspace c = false) s.

(** [s] is not empty and neither starts nor ends with white space. *)
Definition trimmed (s : list ascii) : Prop :=
  match s with
  | [] => False
  | c :: _ => Py.isspace c = false
  end /\
  match rev s with
  | [] => False
  | c :: _ => Py.isspace c = false
  end.

(** Every character of [s] is white space. *)
Definition all_space (s : list ascii) : Prop :=
  Forall (fun c => Py.isspace c = true) s.

End Decimals.

(** * Properties *)

(** ** The monad *)

Lemma bind_ok {S A B} (c : M S A) (k : A -> M S B) s s' a :
  c s = (s', Ok a) -> bind c k s = k a s'.
Proof. intros H; unfold bind; now rewrite H. Qed.

Lemma bind_raise {S A B} (c : M S A) (k : A -> M S B) s s' e :
  c s = (s', Raise e) -> bind c k s = (s', Raise e).
Proof. intros H; unfold bind; now rewrite H. Qed.

Lemma bind_modify {S B} (f : S -> S) (k : unit -> M S B) s :
  bind (modify f) k s = k tt (f s).
Proof. reflexivity. Qed.

Lemma bind_assoc {S A B C} (c : M S A) (k1 : A -> M S B) (k2 : B -> M S C) s :
  bind (bind c k1) k2 s = bind c (fun x => bind (k1 x) k2) s.
Proof. unfold bind. destruct (c s) as [s' [a|e]]; reflexivity. Qed.

Lemma try_finally_total {S A} (c : M S A) (f : M S unit) s :
  (forall s1, snd (f s1) = Ok tt) ->
  try_finally c f s = (fst (f (fst (c s))), snd (c s)).
Proof.
  intros Hf. unfold try_finally.
  destruct (c s) as [s1 r]; cbn [fst snd].
  specialize (Hf s1). destruct (f s1) as [s2 [[]|e]]; cbn in *; congruence.
Qed.

(** ** Teardown *)

Module TeardownFacts.

Import HomScan Lines.

Section WithValues.

Context {F : Type}.

Lemma teardown_run (hw : Hardware) (w : Lab F) :
  teardown hw w =
    (set_stdout (stdout w ++ [zaber_report hw; MsgTcNoExplicitClose])
       (match close_raises hw with
        | None => set_zaber_open false (set_close_calls (S (close_calls w)) w)
        | Some _ => set_close_calls (S (close_calls w)) w
        end), Ok tt).
Proof.
  unfold teardown, zaber_report, try_except, bind, serial_close, print, modify.
  destruct (close_raises hw); cbn; unfold set_stdout; cbn;
    now rewrite <- app_assoc.
Qed.

Lemma guarded_sweep_run (zero : F) fmt ns cfg hw (w : Lab F) :
  guarded_sweep zero fmt ns cfg hw w =
    (fst (teardown hw (fst (sweep zero fmt ns cfg w))), snd (sweep zero fmt ns cfg w)).
Proof.
  unfold guarded_sweep. apply try_finally_total.
  intros s1. now rewrite teardown_run.
Qed.


(** C1, as the code has it. On the normal and on the failing exit of the
    sweep loops alike, the [finally] block calls [BinarySerial.close] once,
    reports a failure of that call without raising it again, then prints the
    TC200 note; it makes no call on the TC200 session, which stays as the
    loops left it; and the outcome of the loops, a failure included, is the
    outcome of the guarded block. *)
Theorem teardown_runs_on_every_exit (zero : F) fmt ns cfg hw (w : Lab F) :
  let body := sweep zero fmt ns cfg w in
  let run := guarded_sweep zero fmt ns cfg hw w in
  snd run = snd body /\
  close_calls (fst run) = S (close_calls (fst body)) /\
  stdout (fst run) = stdout (fst body) ++ [zaber_report hw; MsgTcNoExplicitClose] /\
  zaber_open (fst run) =
    match close_raises hw with
    | None => false
    | Some _ => zaber_open (fst body)
    end /\
  tc_open (fst run) = tc_open (fst body) /\
  tc_calls (fst run) = tc_calls (fst body).
Proof.
  cbv zeta. rewrite guarded_sweep_run, teardown_run. cbn [fst snd].
  destruct (close_raises hw); cbn; auto 10.
Qed.

End WithValues.

(** C1, counterexample. A run over two set points and three positions that
    completes: the Zaber port is closed, the TC200 session is still open. *)
Lemma tc200_session_left_open :
  let run := main 0%Z Fixtures.zfmt (with_meas Fixtures.steady) Fixtures.small
               (Fixtures.bench (Fixtures.scripted 1 [] "10") None) lab0 in
  snd run = Ok tt /\
  ~ (zaber_open (fst run) = false /\ tc_open (fst run) = false).
Proof.
  vm_compute. split; [reflexivity | intros [_ H]; discriminate H].
Qed.

End TeardownFacts.

(** ** The window check of [meas_dir] *)

Module WindowCheckFacts.

Import MeasDir.

Lemma window_check_never_raises au window_spec g :
  snd (window_check au window_spec g) = Ok tt.
Proof.
  unfold window_check, try_except, bind, autoit_win_exists.
  destruct (win_exists au (win_checks g) window_spec) as [code|e]; cbn; [|reflexivity].
  destruct (code =? 0)%Z; reflexivity.
Qed.

(** C4, the code at the failing input. The window is reported missing
    ([win_exists] returns 0) and the controls still answer: [meas_dir(1)]
    raises nothing, reads the three counters and returns a reading. *)
Theorem meas_dir_reads_a_missing_window :
  let run := meas_dir_defaults (Fixtures.scripted 0 [] "7") 1 gui0 in
  (exists r, snd run = Ok r) /\
  gui_trace (fst run) =
    EvWinExists default_window_spec
      :: Stats.iteration_events default_window_spec
           "WindowsForms10.EDIT.app.0.33c0d9d82"
           "WindowsForms10.EDIT.app.0.33c0d9d83"
           "WindowsForms10.EDIT.app.0.33c0d9d24" (2 # 10).
Proof.
  split; [eexists|]; reflexivity.
Qed.

End WindowCheckFacts.

(** ** The script as written *)

Module AsWritten.

Import HomScan Lines.

(** C5, the code at the failing input. [measure_point] calls
    [meas_dir_1sec], a name the module never binds: with the constants of the
    script, whatever the hardware does, the run writes the home frame and the
    move to position 0, then stops on [NameError]. *)
Theorem main_stops_at_first_point {F : Type} (zero : F) fmt hw :
  let run := main zero fmt as_written reference hw lab0 in
  snd run = Raise (NameError "meas_dir_1sec") /\
  frames (fst run) = [home_frame; move_frame 0] /\
  files (fst run) = [].
Proof.
  destruct hw as [au [|] cl]; destruct cl; vm_compute; auto.
Qed.

End AsWritten.

(** ** The delay grid and the size of the line arrays *)

Module GridFacts.

Import HomScan.

Local Open Scope Q_scope.

Lemma Qceiling_not_integer (q : Q) :
  ~ inject_Z (Qfloor q) == q -> Qceiling q = (Qfloor q + 1)%Z.
Proof.
  intros Hq.
  assert (Hlo : inject_Z (Qfloor q) < inject_Z (Qceiling q)).
  { destruct (Qle_lt_or_eq _ _ (Qfloor_le q)) as [Hlt | Heq]; [|contradiction].
    eapply Qlt_le_trans; [exact Hlt | apply Qle_ceiling]. }
  assert (Hhi : inject_Z (Qceiling q - 1) < inject_Z (Qfloor q + 1)).
  { eapply Qlt_trans; [apply Qceiling_lt | apply Qlt_floor]. }
  rewrite <- Zlt_Qlt in Hlo, Hhi. lia.
Qed.

Lemma Qceiling_nonneg (q : Q) : 0 <= q -> (0 <= Qceiling q)%Z.
Proof.
  intros Hq. rewrite Zle_Qle.
  eapply Qle_trans; [exact Hq | apply Qle_ceiling].
Qed.

Lemma arange_length start stop step :
  length (Np.arange start stop step) = Np.arange_len start stop step.
Proof. unfold Np.arange. now rewrite length_map, length_seq. Qed.

Lemma Y_COUNTS_length cfg :
  0 <= N_PAS_COUNTS cfg / STEP_COUNTS cfg ->
  Z.of_nat (length (Y_COUNTS cfg)) = Qceiling (N_PAS_COUNTS cfg / STEP_COUNTS cfg).
Proof.
  intros Hq. unfold Y_COUNTS. rewrite arange_length. unfold Np.arange_len.
  assert (E : (N_PAS_COUNTS cfg - 0) / STEP_COUNTS cfg
              == N_PAS_COUNTS cfg / STEP_COUNTS cfg).
  { apply Qdiv_comp; [|reflexivity]. unfold Qminus. now rewrite Qplus_0_r. }
  rewrite (Qceiling_comp _ _ E).
  apply Z2Nat.id, Qceiling_nonneg, Hq.
Qed.

(** C9, as the code has it. For a travel that is not an exact multiple of the
    step, the delay grid has [floor(N_PAS/STEP) + 1] positions. The line
    arrays have [round(N_PAS/STEP) + 1] rows: as many when the fractional
    part of [N_PAS/STEP] is below one half, one more when it is above. *)
Theorem grid_size_floor_plus_one cfg :
  let q := N_PAS_COUNTS cfg / STEP_COUNTS cfg in
  0 <= q ->
  ~ inject_Z (Qfloor q) == q ->
  Z.of_nat (length (Y_COUNTS cfg)) = (Qfloor q + 1)%Z /\
  (q - inject_Z (Qfloor q) < 1 # 2 ->
   N_GRID cfg = Z.of_nat (length (Y_COUNTS cfg))) /\
  (1 # 2 < q - inject_Z (Qfloor q) ->
   N_GRID cfg = (Z.of_nat (length (Y_COUNTS cfg)) + 1)%Z).
Proof.
  intros q Hq Hni.
  assert (Hlen : Z.of_nat (length (Y_COUNTS cfg)) = (Qfloor q + 1)%Z).
  { rewrite Y_COUNTS_length by exact Hq. now apply Qceiling_not_integer. }
  split; [exact Hlen|].
  unfold N_GRID, Np.py_round. fold q. rewrite Hlen.
  split; intros Hfrac;
    destruct (Qcompare_spec (q - inject_Z (Qfloor q)) (1 # 2)) as [E | L | G];
    try reflexivity.
  - rewrite E in Hfrac. now apply Qlt_irrefl in Hfrac.
  - exfalso. apply (Qlt_irrefl (1 # 2)). eapply Qlt_trans; eassumption.
  - rewrite E in Hfrac. now apply Qlt_irrefl in Hfrac.
  - exfalso. apply (Qlt_irrefl (1 # 2)). eapply Qlt_trans; eassumption.
Qed.

(** With the constants of the script both counts are 54. *)
Lemma grid_size_reference :
  Z.of_nat (length (Y_COUNTS reference)) = 54%Z /\
  N_GRID reference = Z.of_nat (length (Y_COUNTS reference)).
Proof.
  destruct (grid_size_floor_plus_one reference) as (H1 & H2 & _).
  - vm_compute; discriminate.
  - intros H; vm_compute in H; discriminate.
  - split; [exact H1 | apply H2; reflexivity].
Defined.

(** C9, counterexample. A travel of 16000 counts in steps of 10000 is not an
    exact multiple; the grid has floor(1.6) + 1 = 2 positions, and
    round(1.6) + 1 = 3. *)
Lemma round_plus_one_overshoots :
  let cfg := Fixtures.uneven in
  let q := N_PAS_COUNTS cfg / STEP_COUNTS cfg in
  ~ inject_Z (Qfloor q) == q /\
  Z.of_nat (length (Y_COUNTS cfg)) = (Qfloor q + 1)%Z /\
  N_GRID cfg <> Z.of_nat (length (Y_COUNTS cfg)).
Proof.
  cbv zeta. split; [|split].
  - intros H; vm_compute in H; discriminate.
  - reflexivity.
  - vm_compute; discriminate.
Qed.

End GridFacts.

(** ** Sampling and statistics in [meas_dir] *)

Module MeasDirFacts.

Import MeasDir Stats.

Lemma subscript_found d key v (g : Gui) :
  dict_get d key = Some v -> subscript d key g = (g, Ok v).
Proof. intros H. unfold subscript. now rewrite H. Qed.

Lemma read_supplied au w c g v :
  supplied au (reads_done g) w c = Some v ->
  _read_int_field au w c g = (after_read w c g, Ok v).
Proof.
  unfold supplied, _read_int_field, bind, autoit_control_get_text, py_int.
  destruct (control_get_text au (reads_done g) w c) as [txt|e]; [|discriminate].
  intros ->. reflexivity.
Qed.


Lemma on_key_error_raises e (g g' : Gui) a' :
  on_key_error e g = (g', Ok a') -> False.
Proof. destruct e; discriminate. Qed.

Section Controls.

Variables (au : AutoIt) (w : string) (d : dict) (cv ch cc : string) (delay : Q).
Hypothesis HV : dict_get d "V" = Some cv.
Hypothesis HH : dict_get d "H" = Some ch.
Hypothesis HC : dict_get d "C" = Some cc.


(** Whatever the reads return, an iteration that does not raise has made
    exactly the three reads. *)
Lemma iteration_trace i a g g' a' :
  try_except (read_iteration au w d i a) on_key_error g = (g', Ok a') ->
  g' = after_iteration w cv ch cc g.
Proof using HV HH HC.
  unfold try_except, read_iteration, bind.
  rewrite (subscript_found _ _ _ _ HV).
  unfold _read_int_field at 1, bind, autoit_control_get_text, py_int.
  destruct (control_get_text au (reads_done g) w cv) as [t1|e1];
    [destruct (Py.int _) as [v|]|]; cbn; try discriminate;
    try (intros Hk; now apply on_key_error_raises in Hk).
  rewrite (subscript_found _ _ _ _ HH).
  unfold _read_int_field at 1, bind, autoit_control_get_text, py_int. cbn.
  destruct (control_get_text au (S (reads_done g)) w ch) as [t2|e2];
    [destruct (Py.int _) as [h|]|]; cbn; try discriminate;
    try (intros Hk; now apply on_key_error_raises in Hk).
  rewrite (subscript_found _ _ _ _ HC).
  unfold _read_int_field at 1, bind, autoit_control_get_text, py_int. cbn.
  destruct (control_get_text au (S (S (reads_done g))) w cc) as [t3|e3];
    [destruct (Py.int _) as [c|]|]; cbn; try discriminate;
    try (intros Hk; now apply on_key_error_raises in Hk).
  intros [= <- _]. reflexivity.
Qed.

Lemma after_iteration_trace g :
  gui_trace (after_iteration w cv ch cc g) =
    gui_trace g ++ [EvGetText w cv; EvGetText w ch; EvGetText w cc].
Proof. cbn. now rewrite <- !app_assoc. Qed.

(** The loop, when it returns: after every iteration, the last one
    included, one sleep. *)
Lemma sample_loop_trace n : forall i a g g' a',
  sample_loop au w d delay n i a g = (g', Ok a') ->
  gui_trace g' =
    gui_trace g ++ concat (replicate n (iteration_events w cv ch cc delay)).
Proof using HV HH HC.
  induction n as [|n IH]; intros i a g g' a' Hrun.
  - cbn in Hrun. injection Hrun as <- _. cbn. now rewrite app_nil_r.
  - cbn [sample_loop] in Hrun. unfold bind at 1 in Hrun.
    destruct (try_except _ _ g) as [g1 [a1|e1]] eqn:Hit; [|discriminate].
    apply iteration_trace in Hit. subst g1.
    unfold time_sleep in Hrun. rewrite bind_modify in Hrun. apply IH in Hrun. rewrite Hrun.
    cbn [replicate concat]. unfold iteration_events at 2.
    unfold log_event. cbn. now rewrite <- !app_assoc.
Qed.








End Controls.

Lemma window_check_run au w g :
  window_check au w g = (after_window_check w g, Ok tt).
Proof.
  unfold window_check, try_except, bind, autoit_win_exists.
  destruct (win_exists au (win_checks g) w) as [code|e]; cbn; [|reflexivity].
  destruct (code =? 0)%Z; reflexivity.
Qed.

Lemma meas_dir_run au times w controls delay g :
  (0 < times)%Z ->
  meas_dir au times w controls delay g =
    bind (sample_loop au w (effective controls) delay (Z.to_nat times) 0
            {| V_samples := np_zeros (Z.to_nat times);
               H_samples := np_zeros (Z.to_nat times);
               C_samples := np_zeros (Z.to_nat times) |})
         (fun a => ret (np_mean (V_samples a), np_mean (H_samples a),
                        np_mean (C_samples a), np_std (V_samples a),
                        np_std (H_samples a), np_std (C_samples a)))
         (after_window_check w g).
Proof.
  intros Hpos. unfold meas_dir.
  destruct (Z.leb_spec times 0) as [H|_]; [lia|].
  now rewrite (bind_ok _ _ _ _ _ (window_check_run au w g)).
Qed.






Lemma sleeps_of_iterations w cv ch cc delay n :
  length (List.filter is_sleep (concat (replicate n (iteration_events w cv ch cc delay))))
  = n.
Proof.
  induction n as [|n IH]; [reflexivity|].
  cbn [replicate concat]. rewrite List.filter_app, length_app, IH. reflexivity.
Qed.

Lemma last_of_iterations w cv ch cc delay n (l : list GuiEvent) :
  last (l ++ concat (replicate (S n) (iteration_events w cv ch cc delay)))
  = Some (EvSleep delay).
Proof.
  revert l. induction n as [|n IH]; intros l.
  - cbn [replicate concat]. rewrite app_nil_r. unfold iteration_events.
    now rewrite last_app_cons.
  - change (replicate (S (S n)) (iteration_events w cv ch cc delay))
      with (iteration_events w cv ch cc delay
              :: replicate (S n) (iteration_events w cv ch cc delay)).
    cbn [concat]. rewrite app_assoc. apply IH.
Qed.

(** C8, as the code has it. A call of [meas_dir] that returns has slept the
    inter-read delay after every sampling iteration, the last one included:
    after the window check, each iteration is three reads and one sleep, the
    sleeps number as many as the repetitions, and the call ends on a sleep. *)
Theorem meas_dir_sleeps_after_every_iteration
    au times w controls delay g g' r cv ch cc :
  dict_get (effective controls) "V" = Some cv ->
  dict_get (effective controls) "H" = Some ch ->
  dict_get (effective controls) "C" = Some cc ->
  meas_dir au times w controls delay g = (g', Ok r) ->
  gui_trace g' =
    gui_trace g ++ EvWinExists w
      :: concat (replicate (Z.to_nat times) (iteration_events w cv ch cc delay)) /\
  length (List.filter is_sleep (gui_trace g')) =
    length (List.filter is_sleep (gui_trace g)) + Z.to_nat times /\
  last (gui_trace g') = Some (EvSleep delay).
Proof.
  intros HV HH HC Hrun.
  assert (Hpos : (0 < times)%Z).
  { unfold meas_dir in Hrun. destruct (Z.leb_spec times 0); [discriminate | lia]. }
  rewrite meas_dir_run in Hrun by exact Hpos. unfold bind in Hrun.
  destruct (sample_loop _ _ _ _ _ _ _ _) as [g2 [a|e]] eqn:Hloop; [|discriminate].
  cbn in Hrun. injection Hrun as <- _.
  apply (sample_loop_trace au w (effective controls) cv ch cc delay HV HH HC)
    in Hloop.
  assert (Htrace : gui_trace g2 =
    gui_trace g ++ EvWinExists w
      :: concat (replicate (Z.to_nat times) (iteration_events w cv ch cc delay))).
  { rewrite Hloop. cbn. now rewrite <- app_assoc. }
  split; [exact Htrace|]. rewrite Htrace. split.
  - rewrite List.filter_app, length_app. cbn [List.filter is_sleep].
    now rewrite sleeps_of_iterations.
  - destruct (Z.to_nat times) as [|n] eqn:En; [lia|].
    change (gui_trace g ++ EvWinExists w :: ?l)
      with (gui_trace g ++ [EvWinExists w] ++ l).
    rewrite app_assoc. apply last_of_iterations.
Qed.

(** C8 on two repetitions. *)
Lemma meas_dir_sleeps_after_every_iteration_witness :
  let run := meas_dir_defaults (Fixtures.scripted 1 [] "10") 2 gui0 in
  length (List.filter is_sleep (gui_trace (fst run))) = 2 /\
  last (gui_trace (fst run)) = Some (EvSleep (2 # 10)).
Proof.
  cbv zeta.
  set (run := meas_dir_defaults (Fixtures.scripted 1 [] "10") 2 gui0).
  assert (Hrun : run = (fst run,
                        Ok match snd run with
                           | Ok r => r
                           | Raise _ => (0, 0, 0, 0, 0, 0)%R
                           end)) by reflexivity.
  destruct (meas_dir_sleeps_after_every_iteration _ _ _ None _ _ _ _
              "WindowsForms10.EDIT.app.0.33c0d9d82"
              "WindowsForms10.EDIT.app.0.33c0d9d83"
              "WindowsForms10.EDIT.app.0.33c0d9d24"
              eq_refl eq_refl eq_refl Hrun) as (_ & Hn & Hl).
  split; [exact Hn | exact Hl].
Defined.

(** C8, counterexample. Two repetitions: the delay is slept twice, not once,
    and the call ends on a sleep that no read follows. *)
Lemma sleep_follows_last_iteration :
  let run := meas_dir_defaults (Fixtures.scripted 1 [] "10") 2 gui0 in
  (exists r, snd run = Ok r) /\
  length (List.filter is_sleep (gui_trace (fst run))) <> Z.to_nat (2 - 1) /\
  last (gui_trace (fst run)) = Some (EvSleep default_sleep_between_reads).
Proof.
  cbv zeta. split; [eexists; reflexivity|]. split; [|reflexivity].
  vm_compute. discriminate.
Qed.

End MeasDirFacts.

(** ** The delay loop and the temperature lines *)

Module SweepFacts.

Import HomScan Lines.

Section WithValues.

Context {F : Type} (zero : F) (fmt : F -> string).
Variables (ns : Namespace F) (cfg : Config).

Lemma store_ok get set (v : F) (w : Lab F) n :
  length (get (lines w)) = n -> jj w < n ->
  store get set v w =
    (set_lines (set (<[jj w := v]> (get (lines w))) (lines w)) w, Ok tt).
Proof.
  intros L Hj. unfold store. rewrite L.
  destruct (Nat.ltb_spec (jj w) n); [reflexivity | lia].
Qed.

Lemma store_out_of_range get set (v : F) (w : Lab F) n :
  length (get (lines w)) = n -> ~ jj w < n ->
  store get set v w = (w, Raise IndexError).
Proof.
  intros L Hj. unfold store. rewrite L.
  destruct (Nat.ltb_spec (jj w) n); [lia | reflexivity].
Qed.

Lemma move_stage_abs_run y (w : Lab F) :
  move_stage_abs (Np.py_int_of_float y) (STAGE_SETTLE_S cfg) w = (moved cfg y w, Ok tt).
Proof. reflexivity. Qed.

Lemma measure_point_run (w : Lab F) :
  measure_point ns cfg w =
    match meas_dir_1sec ns with
    | None => (w, Raise (NameError "meas_dir_1sec"))
    | Some f => (set_gui (fst (f (MEAS_SECONDS cfg) (gui w))) w,
                 snd (f (MEAS_SECONDS cfg) (gui w)))
    end.
Proof.
  unfold measure_point, zoom. destruct (meas_dir_1sec ns) as [f|]; [|reflexivity].
  now destruct (f (MEAS_SECONDS cfg) (gui w)).
Qed.

(** One step of the delay loop on line arrays of [n] rows. *)
Lemma delay_step_run n y (w : Lab F) :
  sized n (lines w) ->
  delay_step ns cfg y w =
    match meas_dir_1sec ns with
    | None => (moved cfg y w, Raise (NameError "meas_dir_1sec"))
    | Some f =>
        match f (MEAS_SECONDS cfg) (gui w) with
        | (g', Raise e) => (set_gui g' (moved cfg y w), Raise e)
        | (g', Ok r) =>
            if (jj w <? n)%nat
            then (recorded r (set_gui g' (moved cfg y w)), Ok tt)
            else (set_gui g' (moved cfg y w), Raise IndexError)
        end
    end.
Proof.
  intros (L1 & L2 & L3 & L4 & L5 & L6).
  unfold delay_step.
  rewrite (bind_ok _ _ _ _ _ (move_stage_abs_run y w)).
  unfold bind at 1. rewrite measure_point_run.
  destruct (meas_dir_1sec ns) as [f|]; [|reflexivity].
  change (gui (moved cfg y w)) with (gui w).
  destruct (f (MEAS_SECONDS cfg) (gui w)) as [g' [r|e]]; cbn [fst snd]; [|reflexivity].
  destruct r as [[[[[V H] C] eV] eH] eC].
  destruct (Nat.ltb_spec (jj w) n) as [Hj | Hj].
  - erewrite bind_ok by (apply (store_ok _ _ _ _ n); [exact L1 | exact Hj]).
    erewrite bind_ok by (apply (store_ok _ _ _ _ n); [exact L2 | exact Hj]).
    erewrite bind_ok by (apply (store_ok _ _ _ _ n); [exact L3 | exact Hj]).
    erewrite bind_ok by (apply (store_ok _ _ _ _ n); [exact L4 | exact Hj]).
    erewrite bind_ok by (apply (store_ok _ _ _ _ n); [exact L5 | exact Hj]).
    erewrite bind_ok by (apply (store_ok _ _ _ _ n); [exact L6 | exact Hj]).
    reflexivity.
  - erewrite bind_raise
      by (apply (store_out_of_range _ _ _ _ n); [exact L1 | cbn; lia]).
    reflexivity.
Qed.

Lemma sized_put n i r (b : Buffers F) : sized n b -> sized n (put i r b).
Proof.
  destruct r as [[[[[V H] C] eV] eH] eC]. unfold sized, put. cbn.
  now rewrite !length_insert.
Qed.

Lemma sized_record_all n rs : forall i (b : Buffers F),
  sized n b -> sized n (record_all i rs b).
Proof.
  induction rs as [|r rs IH]; intros i b Hb; [exact Hb|].
  cbn. apply IH. now apply sized_put.
Qed.

Lemma sized_reset n (b : Buffers F) : sized n b -> sized n (reset_lines zero b).
Proof.
  intros (L1 & L2 & L3 & L4 & L5 & L6). unfold sized, reset_lines, fill0. cbn.
  now rewrite !length_replicate.
Qed.

Lemma delay_loop_cons n y ys (w : Lab F) :
  sized n (lines w) ->
  for_each (y :: ys) (delay_step ns cfg) w =
    match meas_dir_1sec ns with
    | None => (moved cfg y w, Raise (NameError "meas_dir_1sec"))
    | Some f =>
        match f (MEAS_SECONDS cfg) (gui w) with
        | (g', Raise e) => (set_gui g' (moved cfg y w), Raise e)
        | (g', Ok r) =>
            if (jj w <? n)%nat
            then for_each ys (delay_step ns cfg) (recorded r (set_gui g' (moved cfg y w)))
            else (set_gui g' (moved cfg y w), Raise IndexError)
        end
    end.
Proof.
  intros Hsz. cbn [for_each]. unfold bind at 1. rewrite (delay_step_run n y w Hsz).
  destruct (meas_dir_1sec ns) as [f|]; [|reflexivity].
  destruct (f (MEAS_SECONDS cfg) (gui w)) as [g' [r|e]]; [|reflexivity].
  destruct (jj w <? n)%nat; reflexivity.
Qed.

(** What the delay loop has done when it stops, whatever the reason: [rs]
    are the readings it recorded. *)
Lemma delay_loop_summary n ys : forall w : Lab F,
  sized n (lines w) ->
  exists rs,
    let run := for_each ys (delay_step ns cfg) w in
    lines (fst run) = record_all (jj w) rs (lines w) /\
    jj (fst run) = jj w + length rs /\
    frames (fst run) = frames w ++ map move_frame (take (S (length rs)) ys) /\
    files (fst run) = files w /\
    (rs <> [] -> jj w + length rs <= n) /\
    match snd run with
    | Ok _ => length rs = length ys /\ rs = readings ns cfg (length ys) (gui w)
    | Raise e =>
        length rs < length ys /\
        (measurement_raises ns cfg e \/ (e = IndexError /\ n <= jj w + length rs))
    end.
Proof.
  induction ys as [|y ys IH]; intros w Hsz.
  - exists []. cbn. rewrite app_nil_r, Nat.add_0_r.
    repeat split; try reflexivity; try congruence.
    unfold readings. now destruct (meas_dir_1sec ns).
  - pose proof (delay_loop_cons n y ys w Hsz) as Hrun.
    unfold readings, measurement_raises.
    destruct (meas_dir_1sec ns) as [f|] eqn:Hns.
    2:{ exists []. cbv zeta. rewrite Hrun. cbn. rewrite Nat.add_0_r.
        repeat split; try reflexivity; try congruence; try lia. now left; left. }
    destruct (f (MEAS_SECONDS cfg) (gui w)) as [g' [r|e]] eqn:Hf.
    2:{ exists []. cbv zeta. rewrite Hrun. cbn. rewrite Nat.add_0_r.
        repeat split; try reflexivity; try congruence; try lia.
        left. right. exists f, (gui w). now rewrite Hf. }
    destruct (Nat.ltb_spec (jj w) n) as [Hj | Hj].
    2:{ exists []. cbv zeta. rewrite Hrun. cbn. rewrite Nat.add_0_r.
        repeat split; try reflexivity; try congruence; try lia.
        right. split; [reflexivity | lia]. }
    destruct (IH (recorded r (set_gui g' (moved cfg y w)))) as (rs & IHrun).
    { cbn. now apply sized_put. }
    cbv zeta in IHrun.
    destruct IHrun as (Hl & Hjj & Hfr & Hfi & Hb & Hout).
    exists (r :: rs). cbv zeta. rewrite Hrun. cbn [length record_all].
    repeat split.
    + exact Hl.
    + rewrite Hjj. cbn. lia.
    + rewrite Hfr. cbn. now rewrite <- app_assoc.
    + exact Hfi.
    + intros _. destruct rs as [|r' rs]; [cbn; lia|].
      cbn in Hb. specialize (Hb ltac:(discriminate)). cbn. lia.
    + destruct (snd (for_each ys (delay_step ns cfg) _)) as [[]|e].
      * destruct Hout as [Hlen Hrs]. split; [cbn; lia|].
        cbn [length measured]. rewrite Hf. f_equal.
        rewrite Hrs. unfold readings. now rewrite Hns.
      * destruct Hout as [Hlen Hcause]. split; [cbn; lia|].
        destruct Hcause as [Hm | [He Hn]].
        -- left. unfold measurement_raises in Hm. now rewrite Hns in Hm.
        -- right. split; [exact He | cbn in Hn |- *; lia].
Qed.

Lemma temperature_line_run tset (w : Lab F) :
  temperature_line zero fmt ns cfg tset w =
    match for_each (Y_COUNTS cfg) (delay_step ns cfg) (line_start zero cfg tset w) with
    | (w1, Ok _) => (saved fmt tset w1, Ok tt)
    | (w1, Raise e) => (w1, Raise e)
    end.
Proof.
  unfold temperature_line, home_stage, set_and_wait_temperature, zaber_write,
    serial_write, tc_assign, print, time_sleep.
  repeat (progress (rewrite ?bind_assoc, ?bind_modify; cbv beta)).
  match goal with
  | |- bind _ _ ?s = _ => replace s with (line_start zero cfg tset w)
  end.
  2:{ unfold line_start, home_frame. cbn. now rewrite <- !app_assoc. }
  unfold bind at 1.
  destruct (for_each _ _ _) as [w1 [[]|e]]; [|reflexivity].
  unfold bind, gets, np_savetxt, modify, saved, line_file. cbn.
  now rewrite <- !app_assoc.
Qed.

(** The arrays after a run of recordings, column by column. *)
Lemma record_all_columns rs : forall i (b : Buffers F),
  line_V (record_all i rs b) = list_inserts i (map rV rs) (line_V b) /\
  line_H (record_all i rs b) = list_inserts i (map rH rs) (line_H b) /\
  line_C (record_all i rs b) = list_inserts i (map rC rs) (line_C b) /\
  line_eV (record_all i rs b) = list_inserts i (map reV rs) (line_eV b) /\
  line_eH (record_all i rs b) = list_inserts i (map reH rs) (line_eH b) /\
  line_eC (record_all i rs b) = list_inserts i (map reC rs) (line_eC b).
Proof.
  induction rs as [|r rs IH]; intros i b; [now cbn|].
  cbn [record_all map].
  destruct (IH (S i) (put i r b)) as (E1 & E2 & E3 & E4 & E5 & E6).
  rewrite E1, E2, E3, E4, E5, E6.
  destruct r as [[[[[V H] C] eV] eH] eC]. cbn.
  rewrite !list_insert_inserts_lt by lia. auto 10.
Qed.

Lemma vstack_T_readings (rs : list (F * F * F * F * F * F)) :
  vstack_T (map rV rs) (map rH rs) (map rC rs) (map reV rs) (map reH rs) (map reC rs)
  = map cells rs.
Proof.
  induction rs as [|r rs IH]; [reflexivity|].
  cbn. rewrite IH. now destruct r as [[[[[V H] C] eV] eH] eC].
Qed.

(** A full line of recordings on cleared arrays: the rows of the output are
    the readings, in order. *)
Lemma vstack_T_full_line n rs (b : Buffers F) :
  sized n b -> length rs = n ->
  let b' := record_all 0 rs (reset_lines zero b) in
  vstack_T (line_V b') (line_H b') (line_C b') (line_eV b') (line_eH b') (line_eC b')
  = map cells rs.
Proof.
  intros (L1 & L2 & L3 & L4 & L5 & L6) Hn. cbv zeta.
  destruct (record_all_columns rs 0 (reset_lines zero b))
    as (E1 & E2 & E3 & E4 & E5 & E6).
  rewrite E1, E2, E3, E4, E5, E6. cbn [reset_lines line_V line_H line_C line_eV
    line_eH line_eC]. unfold fill0. rewrite L1, L2, L3, L4, L5, L6.
  assert (Hz : forall xs : list F, length xs = n ->
                 list_inserts 0 xs (replicate n zero) = xs).
  { intros xs Hx.
    rewrite <- (app_nil_r (replicate n zero)), list_inserts_0_r, app_nil_r;
      [reflexivity | now rewrite length_replicate]. }
  rewrite !Hz by now rewrite length_map.
  apply vstack_T_readings.
Qed.

(** Rows past the recordings of a line on cleared arrays hold zero. *)
Lemma cleared_rows_stay_zero n rs (b : Buffers F) i :
  sized n b -> length rs <= i < n ->
  row_is zero (record_all 0 rs (reset_lines zero b)) i.
Proof.
  intros (L1 & L2 & L3 & L4 & L5 & L6) Hi.
  destruct (record_all_columns rs 0 (reset_lines zero b))
    as (E1 & E2 & E3 & E4 & E5 & E6).
  unfold row_is. rewrite E1, E2, E3, E4, E5, E6.
  rewrite !list_lookup_inserts_ge by (rewrite length_map; lia).
  cbn [reset_lines line_V line_H line_C line_eV line_eH line_eC]. unfold fill0.
  rewrite L1, L2, L3, L4, L5, L6.
  repeat split; apply lookup_replicate_2; lia.
Qed.

(** What a temperature line has done when it stops: the summary of its
    delay loop, started on cleared arrays with [jj = 0]. *)
Lemma temperature_line_summary n tset (w : Lab F) :
  sized n (lines w) ->
  exists rs,
    let run := temperature_line zero fmt ns cfg tset w in
    lines (fst run) = record_all 0 rs (reset_lines zero (lines w)) /\
    jj (fst run) = length rs /\
    length rs <= length (Y_COUNTS cfg) /\
    frames (fst run) =
      frames w ++ home_frame :: map move_frame (take (S (length rs)) (Y_COUNTS cfg)) /\
    (rs <> [] -> length rs <= n) /\
    match snd run with
    | Ok _ =>
        rs = readings ns cfg (length (Y_COUNTS cfg)) (gui w) /\
        length rs = length (Y_COUNTS cfg) /\
        files (fst run) =
          files w ++
            [line_file fmt tset
               (let b := lines (fst run) in
                vstack_T (line_V b) (line_H b) (line_C b)
                  (line_eV b) (line_eH b) (line_eC b))]
    | Raise e =>
        files (fst run) = files w /\
        (measurement_raises ns cfg e \/
         (e = IndexError /\ n < length (Y_COUNTS cfg)))
    end.
Proof.
  intros Hsz.
  destruct (delay_loop_summary n (Y_COUNTS cfg) (line_start zero cfg tset w))
    as (rs & Hsum).
  { cbn. now apply sized_reset. }
  cbv zeta in Hsum. cbn [line_start lines jj frames files gui] in Hsum.
  destruct Hsum as (Hl & Hjj & Hfr & Hfi & Hb & Hout).
  exists rs. cbv zeta. rewrite temperature_line_run.
  destruct (for_each (Y_COUNTS cfg) (delay_step ns cfg) (line_start zero cfg tset w))
    as [w1 [[]|e]]; cbn [fst snd] in *.
  - destruct Hout as [Hlen Hrs].
    cbn [saved set_stdout set_files lines jj frames files].
    rewrite Hl, Hjj, Hfr, Hfi. cbn [Nat.add].
    repeat split; try assumption; try lia; try (now rewrite <- app_assoc).
  - destruct Hout as [Hlen Hcause].
    rewrite Hl, Hjj, Hfr, Hfi. cbn [Nat.add].
    repeat split; try assumption; try lia; try (now rewrite <- app_assoc).
    destruct Hcause as [Hm | [He Hn]]; [now left | right].
    split; [exact He | lia].
Qed.

(** C6. A temperature line that completes, on arrays with one row per
    delay position, writes exactly one file: its path embeds round(tset, 1),
    its first line is the bare header, and then comes one comma-separated row
    of the six values measured at each delay position, in order, and nothing
    after. *)
Theorem completed_line_writes_one_file n tset (w w' : Lab F) :
  sized n (lines w) ->
  length (Y_COUNTS cfg) = n ->
  temperature_line zero fmt ns cfg tset w = (w', Ok tt) ->
  length (readings ns cfg n (gui w)) = n /\
  files w' =
    files w ++
      [{| path := (OUTPUT_DIR ++ "/" ++ Np.round1_repr tset
                     ++ "_pump_ha_det_txikienaena_01.dat")%string;
          content := "V,H,C,eV,eH,eC"%string
                       :: map (row_text fmt) (readings ns cfg n (gui w)) |}].
Proof.
  intros Hsz Hn Hrun.
  destruct (temperature_line_summary n tset w Hsz) as (rs & Hsum).
  cbv zeta in Hsum. rewrite Hrun in Hsum. cbn [fst snd] in Hsum.
  destruct Hsum as (Hl & _ & _ & _ & _ & Hrs & Hlen & Hfi).
  rewrite Hn in Hrs, Hlen. subst rs. split; [exact Hlen|].
  rewrite Hfi, Hl. rewrite (vstack_T_full_line n _ _ Hsz Hlen).
  unfold line_file, out_path. now rewrite map_map.
Qed.

(** C7. Every temperature line clears the six arrays before its delay loop:
    when the line stops, completed or not, [jj] rows have been written and
    every row from [jj] on holds zero, whatever the arrays held before. *)
Theorem unwritten_rows_hold_zero n tset (w : Lab F) :
  sized n (lines w) ->
  let w' := fst (temperature_line zero fmt ns cfg tset w) in
  jj w' <= length (Y_COUNTS cfg) /\
  forall i, jj w' <= i < n -> row_is zero (lines w') i.
Proof.
  intros Hsz.
  destruct (temperature_line_summary n tset w Hsz) as (rs & Hsum).
  cbv zeta in Hsum |- *.
  destruct Hsum as (Hl & Hjj & Hle & _).
  rewrite Hl, Hjj. split; [exact Hle|].
  intros i Hi. now apply (cleared_rows_stay_zero n).
Qed.


Lemma temperature_line_sized n tset (w : Lab F) :
  sized n (lines w) ->
  sized n (lines (fst (temperature_line zero fmt ns cfg tset w))).
Proof.
  intros Hsz.
  destruct (temperature_line_summary n tset w Hsz) as (rs & Hsum).
  cbv zeta in Hsum. destruct Hsum as (Hl & _). rewrite Hl.
  now apply sized_record_all, sized_reset.
Qed.

Lemma for_each_cons_run {A : Type} (x : A) xs (body : A -> M (Lab F) unit) w :
  for_each (x :: xs) body w =
    match body x w with
    | (w1, Ok _) => for_each xs body w1
    | (w1, Raise e) => (w1, Raise e)
    end.
Proof. reflexivity. Qed.

(** What the loop over the set points has done when it stops: [done] are the
    lines it completed, each with its file; a failure comes from the
    measurement of the line in progress, which has no file. *)
Lemma temperature_loop_summary n ts : forall w : Lab F,
  sized n (lines w) ->
  exists done,
    let run := for_each ts (temperature_line zero fmt ns cfg) w in
    sized n (lines (fst run)) /\
    map path (files (fst run)) = map path (files w) ++ map out_path done /\
    match snd run with
    | Ok _ => done = ts
    | Raise e =>
        (exists t rest, ts = done ++ t :: rest) /\
        (measurement_raises ns cfg e \/
         (e = IndexError /\ n < length (Y_COUNTS cfg)))
    end.
Proof.
  induction ts as [|t ts IH]; intros w Hsz.
  - exists []. cbn. now rewrite app_nil_r.
  - pose proof (temperature_line_sized n t w Hsz) as Hsz1.
    destruct (temperature_line_summary n t w Hsz) as (rs & Hsum).
    cbv zeta in Hsum. destruct Hsum as (_ & _ & _ & _ & _ & Hout).
    pose proof (for_each_cons_run t ts (temperature_line zero fmt ns cfg) w) as Hrun.
    destruct (temperature_line zero fmt ns cfg t w) as [w1 [[]|e]];
      cbn [fst snd] in *.
    + destruct Hout as (_ & _ & Hfi).
      destruct (IH w1 Hsz1) as (done & Hs & Hp & Hrest).
      exists (t :: done). cbv zeta. rewrite Hrun. split; [exact Hs|]. split.
      * rewrite Hp, Hfi, map_app. cbn. now rewrite <- app_assoc.
      * destruct (snd (for_each ts _ w1)) as [[]|e]; [now subst|].
        destruct Hrest as [Hex Hc]. split; [|exact Hc].
        destruct Hex as [t' [rest Hts]]. exists t', rest. now rewrite Hts.
    + destruct Hout as [Hfi Hc]. exists []. cbv zeta. rewrite Hrun.
      cbn. rewrite Hfi, app_nil_r.
      split; [exact Hsz1|]. split; [reflexivity|]. split; [|exact Hc].
      now exists t, ts.
Qed.

Lemma prepare_sized hw (w : Lab F) :
  (0 <= N_GRID cfg)%Z ->
  snd (prepare zero cfg hw w) = Ok tt /\
  sized (Z.to_nat (N_GRID cfg)) (lines (fst (prepare zero cfg hw w))).
Proof.
  intros Hn. unfold prepare, np_zeros, init_temperature_controller, tc_assign,
    print, time_sleep.
  destruct (Z.ltb_spec (N_GRID cfg) 0) as [H|_]; [lia|].
  destruct (lut_exists hw); unfold bind, modify, ret; cbn;
    (split; [reflexivity | repeat split; apply length_replicate]).
Qed.

(** The outcome of [main] after a preparation that returned is the outcome
    of the sweep loops. *)
Lemma main_outcome hw (w : Lab F) :
  snd (prepare zero cfg hw w) = Ok tt ->
  snd (main zero fmt ns cfg hw w) =
    snd (sweep zero fmt ns cfg (fst (prepare zero cfg hw w))).
Proof.
  intros Hp. unfold main, bind.
  destruct (prepare zero cfg hw w) as [w0 [[]|e0]]; [|discriminate].
  cbn [fst]. rewrite TeardownFacts.guarded_sweep_run.
  now destruct (snd (sweep zero fmt ns cfg w0)) as [[]|e].
Qed.


End WithValues.

(** C6 on the first line of a run over three delay positions. *)
Lemma completed_line_writes_one_file_witness :
  files (fst (temperature_line 0%Z Fixtures.zfmt (with_meas Fixtures.steady)
                Fixtures.small 45 Fixtures.allocated)) =
    [{| path := "11th waist/45.0_pump_ha_det_txikienaena_01.dat";
        content := ["V,H,C,eV,eH,eC"; "10,10,5,0,0,0"; "10,10,5,0,0,0";
                    "10,10,5,0,0,0"]%string |}].
Proof.
  destruct (completed_line_writes_one_file 0%Z Fixtures.zfmt
              (with_meas Fixtures.steady) Fixtures.small 3 45
              Fixtures.allocated
              (fst (temperature_line 0%Z Fixtures.zfmt (with_meas Fixtures.steady)
                      Fixtures.small 45 Fixtures.allocated))) as [_ Hfiles].
  - vm_compute. repeat split; reflexivity.
  - vm_compute. reflexivity.
  - vm_compute. reflexivity.
  - rewrite Hfiles. vm_compute. reflexivity.
Defined.

(** C7 on arrays that hold the readings of an earlier line, for a line that
    stops after one point: rows 1 and 2 hold zero. *)
Lemma unwritten_rows_hold_zero_witness :
  let w' := fst (temperature_line 0%Z Fixtures.zfmt
                   (with_meas (Fixtures.failing_at 1)) Fixtures.small 45
                   Fixtures.used) in
  line_V (lines Fixtures.used) = [10; 10; 10]%Z /\
  jj w' = 1 /\
  row_is 0%Z (lines w') 1 /\ row_is 0%Z (lines w') 2.
Proof.
  cbv zeta.
  destruct (unwritten_rows_hold_zero 0%Z Fixtures.zfmt
              (with_meas (Fixtures.failing_at 1)) Fixtures.small 3 45
              Fixtures.used) as [_ Hzero].
  - vm_compute. repeat split; reflexivity.
  - split; [vm_compute; reflexivity|]. split; [vm_compute; reflexivity|].
    split; apply Hzero; vm_compute; lia.
Defined.



(** C10. With the constants of the script the delay grid has as many
    positions as the line arrays have rows, and no store into the arrays is
    out of range: a run of [main] can only fail through its measurement,
    never on [IndexError] from [line_X[jj, 0] = ...]. *)
Theorem delay_index_in_bounds :
  Z.of_nat (length (Y_COUNTS reference)) = N_GRID reference /\
  forall (F : Type) (zero : F) fmt ns hw e,
    snd (main zero fmt ns reference hw lab0) = Raise e ->
    measurement_raises ns reference e.
Proof.
  split; [vm_compute; reflexivity|].
  intros F zero fmt ns hw e Hrun.
  destruct (prepare_sized zero reference hw lab0) as [Hp Hsz];
    [vm_compute; discriminate|].
  rewrite (main_outcome zero fmt ns reference hw lab0 Hp) in Hrun.
  destruct (temperature_loop_summary zero fmt ns reference _ (T_vec reference) _ Hsz)
    as (done & Hsum).
  cbv zeta in Hsum. fold (sweep zero fmt ns reference) in Hsum.
  destruct Hsum as (_ & _ & Hout). rewrite Hrun in Hout.
  destruct Hout as [_ [Hm | [_ Hn]]]; [exact Hm|].
  exfalso. revert Hn. vm_compute. lia.
Qed.

(** C10 on the script as written: the run fails in its measurement. *)
Lemma delay_index_in_bounds_witness :
  measurement_raises (F := Z) as_written reference (NameError "meas_dir_1sec").
Proof.
  destruct delay_index_in_bounds as [_ Hmain].
  apply (Hmain Z 0%Z Fixtures.zfmt as_written Fixtures.quiet).
  vm_compute. reflexivity.
Defined.

End SweepFacts.

(** ** Reading integers from control text *)

Module ParseFacts.

Import Decimals.

Lemma chars_of_uint_acc (d : Decimal.uint) : forall prev acc,
  Py.digits prev acc (list_ascii_of_string (NilEmpty.string_of_uint d)) =
    match d with
    | Decimal.Nil => if prev then Some acc else None
    | _ => Some (uint_acc d acc)
    end.
Proof.
  induction d as [|d IH|d IH|d IH|d IH|d IH|d IH|d IH|d IH|d IH|d IH];
    intros prev acc; [reflexivity| ..];
    cbn [NilEmpty.string_of_uint list_ascii_of_string Py.digits uint_acc];
    change (Py.isdigit _) with true; cbv iota;
    rewrite IH; destruct d; reflexivity.
Qed.

Lemma uint_acc_pos (d : Decimal.uint) : forall p : positive,
  uint_acc d (Z.pos p) = Z.pos (Pos.of_uint_acc d p).
Proof.
  induction d as [|d IH|d IH|d IH|d IH|d IH|d IH|d IH|d IH|d IH|d IH];
    intros p; cbn [uint_acc Pos.of_uint_acc]; [reflexivity| ..];
    rewrite <- IH; f_equal; lia.
Qed.

Lemma uint_acc_zero (d : Decimal.uint) : uint_acc d 0 = Z.of_N (Pos.of_uint d).
Proof.
  induction d as [|d IH|d IH|d IH|d IH|d IH|d IH|d IH|d IH|d IH|d IH];
    cbn [uint_acc Pos.of_uint]; [reflexivity | exact IH | ..];
    cbn [Z.of_N]; rewrite <- uint_acc_pos; reflexivity.
Qed.

Lemma lstrip_head (s : list ascii) :
  match s with
  | [] => False
  | c :: _ => Py.isspace c = false
  end ->
  Py.lstrip s = s.
Proof. destruct s as [|c s]; [contradiction|]. cbn. now intros ->. Qed.

Lemma lstrip_padding (ws s : list ascii) :
  all_space ws -> Py.lstrip (ws ++ s) = Py.lstrip s.
Proof.
  induction 1 as [|c ws Hc _ IH]; [reflexivity|]. cbn. now rewrite Hc.
Qed.

(** White space around a trimmed text is what [strip] removes. *)
Lemma strip_padding (ws1 core ws2 : list ascii) :
  all_space ws1 -> all_space ws2 -> trimmed core ->
  Py.strip (ws1 ++ core ++ ws2) = core.
Proof.
  intros H1 H2 [Hhd Hlast]. unfold Py.strip.
  rewrite lstrip_padding by exact H1.
  rewrite (lstrip_head (core ++ ws2))
    by (destruct core; [contradiction | exact Hhd]).
  rewrite rev_app_distr, lstrip_padding by (apply Forall_rev, H2).
  rewrite (lstrip_head (rev core)) by exact Hlast.
  apply rev_involutive.
Qed.

Lemma strip_trimmed (s : list ascii) : trimmed s -> Py.strip s = s.
Proof.
  intros Hs.
  assert (He : all_space []) by constructor.
  pose proof (strip_padding [] s [] He He Hs) as H.
  now rewrite app_nil_l, app_nil_r in H.
Qed.

Lemma no_space_trimmed (s : list ascii) : no_space s -> s <> [] -> trimmed s.
Proof.
  intros Hs Hne. split.
  - destruct s as [|c s]; [congruence|]. now inversion Hs.
  - apply Forall_rev in Hs.
    destruct (rev s) as [|c r] eqn:Er; [|now inversion Hs].
    apply (f_equal (@rev ascii)) in Er. rewrite rev_involutive in Er. now subst.
Qed.

Lemma chars_of_uint_no_space (d : Decimal.uint) :
  no_space (list_ascii_of_string (NilEmpty.string_of_uint d)).
Proof.
  induction d; cbn [NilEmpty.string_of_uint list_ascii_of_string];
    constructor; try reflexivity; assumption.
Qed.

Lemma int_of_uint_chars (d : Decimal.uint) :
  d <> Decimal.Nil ->
  Py.int (list_ascii_of_string (NilEmpty.string_of_uint d)) =
    Some (Z.of_N (Pos.of_uint d)).
Proof.
  intros Hd. unfold Py.int.
  replace (Py.strip (list_ascii_of_string (NilEmpty.string_of_uint d)))
    with (list_ascii_of_string (NilEmpty.string_of_uint d)).
  2:{ symmetry. apply strip_trimmed, no_space_trimmed.
      - apply chars_of_uint_no_space.
      - now destruct d. }
  rewrite <- uint_acc_zero.
  pose proof (chars_of_uint_acc d false 0) as Hdig.
  destruct d; try congruence; exact Hdig.
Qed.

(** Round trip: [int] reads back every integer written in plain decimal. *)
Theorem int_of_decimal (z : Z) :
  Py.int (list_ascii_of_string (decimal z)) = Some z.
Proof.
  destruct z as [|p|p]; [reflexivity| |].
  - unfold decimal. cbn [Z.to_int NilZero.string_of_int].
    pose proof (DecimalPos.Unsigned.to_uint_nonnil p) as Hp.
    replace (NilZero.string_of_uint (Pos.to_uint p))
      with (NilEmpty.string_of_uint (Pos.to_uint p))
      by (destruct (Pos.to_uint p); [congruence | reflexivity ..]).
    rewrite int_of_uint_chars by exact Hp.
    now rewrite DecimalPos.Unsigned.of_to.
  - unfold decimal. cbn [Z.to_int NilZero.string_of_int list_ascii_of_string].
    pose proof (DecimalPos.Unsigned.to_uint_nonnil p) as Hp.
    replace (NilZero.string_of_uint (Pos.to_uint p))
      with (NilEmpty.string_of_uint (Pos.to_uint p))
      by (destruct (Pos.to_uint p); [congruence | reflexivity ..]).
    unfold Py.int.
    replace (Py.strip ("-"%char :: list_ascii_of_string
                          (NilEmpty.string_of_uint (Pos.to_uint p))))
      with ("-"%char :: list_ascii_of_string
              (NilEmpty.string_of_uint (Pos.to_uint p))).
    2:{ symmetry. apply strip_trimmed, no_space_trimmed; [|discriminate].
        constructor; [reflexivity | apply chars_of_uint_no_space]. }
    pose proof (chars_of_uint_acc (Pos.to_uint p) false 0) as Hdig.
    rewrite uint_acc_zero, DecimalPos.Unsigned.of_to in Hdig.
    destruct (Pos.to_uint p); try congruence; now rewrite Hdig.
Qed.

End ParseFacts.

(** ** More on [meas_dir]: arguments, mappings, call counts *)

Module MeasDirEdges.

Import MeasDir Stats Decimals.

(** A control that shows an integer in decimal, with white space around it
    and commas anywhere inside, is read as that integer. *)
Theorem read_int_field_grouped au w c g ws1 core ws2 z :
  control_get_text au (reads_done g) w c =
    TextReturns (string_of_list_ascii (ws1 ++ core ++ ws2)) ->
  all_space ws1 -> all_space ws2 -> trimmed core ->
  Py.remove_commas core = list_ascii_of_string (decimal z) ->
  _read_int_field au w c g = (after_read w c g, Ok z).
Proof.
  intros Ht H1 H2 Hc Hz. apply MeasDirFacts.read_supplied.
  unfold supplied, clean. rewrite Ht.
  rewrite !list_ascii_of_string_of_list_ascii.
  rewrite ParseFacts.strip_padding by assumption.
  rewrite Hz. apply ParseFacts.int_of_decimal.
Qed.

(** The text " 1,234 " reads as 1234. *)
Lemma read_int_field_grouped_witness :
  _read_int_field (Fixtures.scripted 1 [" 1,234 "] "") "w" "c" gui0 =
    (after_read "w" "c" gui0, Ok 1234%Z).
Proof.
  apply (read_int_field_grouped _ _ _ _ [" "%char]
           (list_ascii_of_string "1,234") [" "%char]).
  - reflexivity.
  - repeat constructor.
  - repeat constructor.
  - split; reflexivity.
  - reflexivity.
Defined.

(** A non-positive [times] is refused before anything is touched: the call
    raises [ValueError] and makes no AutoIt call and no sleep. *)
Theorem meas_dir_rejects_nonpositive au times w controls delay g :
  (times <= 0)%Z ->
  meas_dir au times w controls delay g =
    (g, Raise (ValueError "times must be a positive integer")).
Proof.
  intros H. unfold meas_dir.
  destruct (Z.leb_spec times 0); [reflexivity | lia].
Qed.

Lemma meas_dir_rejects_nonpositive_witness :
  meas_dir_defaults (Fixtures.scripted 1 [] "10") (-3) gui0 =
    (gui0, Raise (ValueError "times must be a positive integer")).
Proof.
  apply meas_dir_rejects_nonpositive. lia.
Defined.

(** A mapping without the key "V" fails the call with [RuntimeError] right
    after the window check, before any control is read. *)
Theorem meas_dir_missing_V au times w controls delay g :
  (0 < times)%Z ->
  dict_get (effective controls) "V" = None ->
  exists msg,
    meas_dir au times w controls delay g =
      (after_window_check w g, Raise (RuntimeError msg)).
Proof.
  intros Hpos HV. rewrite MeasDirFacts.meas_dir_run by exact Hpos.
  destruct (Z.to_nat times) as [|n] eqn:En; [lia|].
  eexists. cbn [sample_loop]. unfold bind at 1 2, try_except, read_iteration.
  unfold bind at 1, subscript. rewrite HV. reflexivity.
Qed.

Lemma meas_dir_missing_V_witness :
  exists msg,
    meas_dir (Fixtures.scripted 1 [] "10") 5 "w" (Some [("H", "h"); ("C", "c")])
      (2 # 10) gui0 =
      (after_window_check "w" gui0, Raise (RuntimeError msg)).
Proof.
  apply meas_dir_missing_V; [lia | reflexivity].
Defined.

Lemma iteration_budget au w d i a g :
  let run := try_except (read_iteration au w d i a) on_key_error g in
  win_checks (fst run) = win_checks g /\
  reads_done g <= reads_done (fst run) <= reads_done g + 3 /\
  (forall a', snd run = Ok a' -> reads_done (fst run) = reads_done g + 3).
Proof.
  cbv zeta.
  unfold try_except, read_iteration, bind, subscript, _read_int_field, bind,
    autoit_control_get_text, py_int, ret, raise.
  repeat (match goal with
          | |- context [match dict_get ?x ?k with _ => _ end] =>
              destruct (dict_get x k)
          | |- context [match control_get_text ?x ?k ?y ?z with _ => _ end] =>
              destruct (control_get_text x k y z)
          | |- context [match Py.int ?x with _ => _ end] => destruct (Py.int x)
          | |- context [on_key_error ?e] => destruct e
          end; cbn);
    repeat split; try lia; intros; try discriminate; lia.
Qed.

Lemma sample_loop_cons au w d delay n i a g :
  sample_loop au w d delay (S n) i a g =
    match try_except (read_iteration au w d i a) on_key_error g with
    | (g1, Ok a1) => sample_loop au w d delay n (S i) a1 (log_event (EvSleep delay) g1)
    | (g1, Raise e) => (g1, Raise e)
    end.
Proof.
  cbn [sample_loop]. unfold bind at 1.
  destruct (try_except _ _ g) as [g1 [a1|e]]; reflexivity.
Qed.

Lemma sample_loop_budget au w d delay n : forall i a g,
  let run := sample_loop au w d delay n i a g in
  win_checks (fst run) = win_checks g /\
  reads_done g <= reads_done (fst run) <= reads_done g + 3 * n /\
  (forall a', snd run = Ok a' -> reads_done (fst run) = reads_done g + 3 * n).
Proof.
  induction n as [|n IH]; intros i a g; cbv zeta.
  - cbn. repeat split; try lia; try (intros; lia).
  - rewrite sample_loop_cons.
    destruct (iteration_budget au w d i a g) as (Hw & Hr & Hok). cbv zeta in *.
    destruct (try_except (read_iteration au w d i a) on_key_error g)
      as [g1 [a1|e]]; cbn [fst snd] in *.
    + specialize (Hok a1 eq_refl).
      destruct (IH (S i) a1 (log_event (EvSleep delay) g1)) as (Hw' & Hr' & Hok').
      cbv zeta in *. cbn [log_event win_checks reads_done] in *.
      rewrite Hw'. split; [exact Hw|]. split; [lia|].
      intros a' Ha. specialize (Hok' a' Ha). lia.
    + repeat split; try lia; try (intros; discriminate).
Qed.

(** No retry and no extra read: a call with a positive [times], however it
    ends, has asked once whether the window exists and has read the controls
    at most [3 * times] times, and exactly [3 * times] times when it
    returns. *)
Theorem meas_dir_call_budget au times w controls delay g :
  (0 < times)%Z ->
  let run := meas_dir au times w controls delay g in
  win_checks (fst run) = S (win_checks g) /\
  reads_done g <= reads_done (fst run) <= reads_done g + 3 * Z.to_nat times /\
  (forall r, snd run = Ok r ->
     reads_done (fst run) = reads_done g + 3 * Z.to_nat times).
Proof.
  intros Hpos. cbv zeta. rewrite MeasDirFacts.meas_dir_run by exact Hpos.
  unfold bind.
  destruct (sample_loop_budget au w (effective controls) delay (Z.to_nat times) 0
              {| V_samples := np_zeros (Z.to_nat times);
                 H_samples := np_zeros (Z.to_nat times);
                 C_samples := np_zeros (Z.to_nat times) |}
              (after_window_check w g)) as (Hw & Hr & Hok).
  cbv zeta in *.
  destruct (sample_loop _ _ _ _ _ _ _ _) as [g1 [a1|e]];
    cbn [fst snd ret after_window_check win_checks reads_done] in *.
  - specialize (Hok a1 eq_refl). repeat split; try lia; try (intros; lia).
  - repeat split; try lia; try (intros; discriminate).
Qed.

(** The budget on a call whose fifth read shows text that is no integer:
    five reads, not six. *)
Lemma meas_dir_call_budget_witness :
  let run := meas_dir_defaults
               (Fixtures.scripted 1 ["1"; "2"; "3"; "4"; "five"] "6") 2 gui0 in
  win_checks (fst run) = 1 /\ reads_done (fst run) = 5 /\
  reads_done (fst run) <= 3 * Z.to_nat 2.
Proof.
  cbv zeta.
  destruct (meas_dir_call_budget
              (Fixtures.scripted 1 ["1"; "2"; "3"; "4"; "five"] "6") 2
              default_window_spec None default_sleep_between_reads gui0)
    as (Hw & Hr & _); [lia|].
  split; [exact Hw|]. split; [vm_compute; reflexivity | exact (proj2 Hr)].
Defined.

End MeasDirEdges.

(** ** More on the delay grid *)

Module GridEdges.

Import HomScan Lines.

Local Open Scope Q_scope.

Lemma Qceiling_le_floor_succ (q : Q) : (Qceiling q <= Qfloor q + 1)%Z.
Proof.
  assert (H : inject_Z (Qceiling q - 1) < inject_Z (Qfloor q + 1)).
  { eapply Qlt_trans; [apply Qceiling_lt | apply Qlt_floor]. }
  rewrite <- Zlt_Qlt in H. lia.
Qed.

Lemma Qfloor_le_ceiling (q : Q) : (Qfloor q <= Qceiling q)%Z.
Proof.
  rewrite Zle_Qle. eapply Qle_trans; [apply Qfloor_le | apply Qle_ceiling].
Qed.

Lemma py_round_bounds (q : Q) :
  (Qfloor q <= Np.py_round q <= Qceiling q)%Z.
Proof.
  unfold Np.py_round.
  destruct (Qcompare_spec (q - inject_Z (Qfloor q)) (1 # 2)) as [E | L | G].
  - destruct (Z.even (Qfloor q)); [pose proof (Qfloor_le_ceiling q); lia|].
    rewrite GridFacts.Qceiling_not_integer; [lia|].
    intros Hint. rewrite <- Hint in E at 1.
    unfold Qminus in E. rewrite Qplus_opp_r in E. discriminate E.
  - pose proof (Qfloor_le_ceiling q). lia.
  - rewrite GridFacts.Qceiling_not_integer; [lia|].
    intros Hint. rewrite <- Hint in G at 1.
    unfold Qminus in G. rewrite Qplus_opp_r in G. discriminate G.
Qed.

Lemma rows_cover_positions cfg :
  0 <= N_PAS_COUNTS cfg / STEP_COUNTS cfg ->
  (Z.of_nat (length (Y_COUNTS cfg)) <= N_GRID cfg
   <= Z.of_nat (length (Y_COUNTS cfg)) + 1)%Z.
Proof.
  intros Hq. rewrite GridFacts.Y_COUNTS_length by exact Hq. unfold N_GRID.
  pose proof (py_round_bounds (N_PAS_COUNTS cfg / STEP_COUNTS cfg)).
  pose proof (Qceiling_le_floor_succ (N_PAS_COUNTS cfg / STEP_COUNTS cfg)).
  lia.
Qed.

(** The line arrays always cover the delay grid: for a non-negative ratio of
    travel to step, [N_GRID] is the number of delay positions or one more. *)
Theorem grid_rows_cover_positions cfg :
  0 <= N_PAS_COUNTS cfg / STEP_COUNTS cfg ->
  (Z.of_nat (length (Y_COUNTS cfg)) <= N_GRID cfg
   <= Z.of_nat (length (Y_COUNTS cfg)) + 1)%Z.
Proof. exact (rows_cover_positions cfg). Qed.

(** A travel of exactly two steps: two positions, three rows. *)
Lemma grid_rows_cover_positions_witness :
  (Z.of_nat (length (Y_COUNTS Fixtures.even_travel)) <= N_GRID Fixtures.even_travel
   <= Z.of_nat (length (Y_COUNTS Fixtures.even_travel)) + 1)%Z /\
  length (Y_COUNTS Fixtures.even_travel) = 2%nat /\
  N_GRID Fixtures.even_travel = 3%Z.
Proof.
  split; [|split; reflexivity].
  apply grid_rows_cover_positions. vm_compute. discriminate.
Defined.

Lemma Y_COUNTS_lookup cfg (i : nat) y :
  Y_COUNTS cfg !! i = Some y ->
  (i < length (Y_COUNTS cfg))%nat /\
  y == inject_Z (Z.of_nat i) * STEP_COUNTS cfg.
Proof.
  intros Hy. pose proof (lookup_lt_Some _ _ _ Hy) as Hlt. split; [exact Hlt|].
  unfold Y_COUNTS, Np.arange in *.
  rewrite list_lookup_fmap in Hy.
  rewrite length_map, length_seq in Hlt.
  rewrite lookup_seq_lt in Hy by exact Hlt. cbn in Hy.
  injection Hy as <-. rewrite Qred_correct. ring.
Qed.

(** No move leaves the travel range: for a positive step, the delay position
    number [i] is [i * STEP_COUNTS], it lies in [0, N_PAS_COUNTS), and the
    count sent in its move frame is its integer part, in the same range. *)
Theorem positions_within_travel cfg (i : nat) y :
  0 < STEP_COUNTS cfg ->
  Y_COUNTS cfg !! i = Some y ->
  y == inject_Z (Z.of_nat i) * STEP_COUNTS cfg /\
  0 <= y /\ y < N_PAS_COUNTS cfg /\
  payload (move_frame y) = Some (Qfloor y) /\
  0 <= inject_Z (Qfloor y) /\ inject_Z (Qfloor y) < N_PAS_COUNTS cfg.
Proof.
  intros Hstep Hy.
  destruct (Y_COUNTS_lookup cfg i y Hy) as [Hlt Heq].
  assert (Hi : 0 <= inject_Z (Z.of_nat i)).
  { change (inject_Z 0 <= inject_Z (Z.of_nat i)). rewrite <- Zle_Qle. lia. }
  assert (H0 : 0 <= y).
  { rewrite Heq. apply Qmult_le_0_compat; [exact Hi | now apply Qlt_le_weak]. }
  assert (Hy' : y < N_PAS_COUNTS cfg).
  { unfold Y_COUNTS in Hlt. rewrite GridFacts.arange_length in Hlt.
    unfold Np.arange_len in Hlt.
    set (q := (N_PAS_COUNTS cfg - 0) / STEP_COUNTS cfg) in *.
    assert (Hc : (Z.of_nat i <= Qceiling q - 1)%Z) by lia.
    assert (Hq : inject_Z (Z.of_nat i) < q).
    { eapply Qle_lt_trans; [|apply Qceiling_lt]. now rewrite <- Zle_Qle. }
    rewrite Heq.
    assert (Hm : inject_Z (Z.of_nat i) * STEP_COUNTS cfg < q * STEP_COUNTS cfg).
    { apply Qmult_lt_compat_r; assumption. }
    eapply Qlt_le_trans; [exact Hm|]. unfold q.
    rewrite Qmult_comm, Qmult_div_r.
    - unfold Qminus. rewrite Qplus_0_r. apply Qle_refl.
    - intros E. rewrite E in Hstep. discriminate Hstep. }
  split; [exact Heq|]. split; [exact H0|]. split; [exact Hy'|].
  split.
  - unfold move_frame, Np.py_int_of_float. cbn [payload].
    apply Qle_bool_iff in H0. now rewrite H0.
  - split.
    + change (inject_Z (Qfloor 0) <= inject_Z (Qfloor y)).
      rewrite <- Zle_Qle. now apply Qfloor_resp_le.
    + eapply Qle_lt_trans; [apply Qfloor_le | exact Hy'].
Qed.

Lemma positions_within_travel_witness :
  (530000 : Q) == inject_Z (Z.of_nat 53) * STEP_COUNTS reference /\
  payload (move_frame 530000) = Some (Qfloor 530000) /\
  inject_Z (Qfloor 530000) < N_PAS_COUNTS reference.
Proof.
  destruct (positions_within_travel reference 53 530000)
    as (H1 & _ & _ & H4 & _ & H6).
  - reflexivity.
  - vm_compute. reflexivity.
  - split; [exact H1|]. split; [exact H4 | exact H6].
Defined.

End GridEdges.

(** ** More on the sweep: spare rows, whole runs, devices *)

Module SweepEdges.

Import HomScan Lines SweepFacts.

Section WithValues.

Context {F : Type} (zero : F) (fmt : F -> string).
Variables (ns : Namespace F) (cfg : Config).

Lemma list_inserts_zero_pad (xs : list F) n :
  length xs <= n ->
  list_inserts 0 xs (replicate n zero) = xs ++ replicate (n - length xs) zero.
Proof.
  intros Hn.
  replace n with (length xs + (n - length xs)) at 1 by lia.
  rewrite replicate_add. apply list_inserts_0_r. now rewrite length_replicate.
Qed.

Lemma map_replicate {A B : Type} (f : A -> B) n (x : A) :
  map f (replicate n x) = replicate n (f x).
Proof. induction n as [|n IH]; [reflexivity|]. cbn. now rewrite IH. Qed.

Lemma vstack_T_padded (rs : list (F * F * F * F * F * F)) m :
  vstack_T (map rV rs ++ replicate m zero) (map rH rs ++ replicate m zero)
    (map rC rs ++ replicate m zero) (map reV rs ++ replicate m zero)
    (map reH rs ++ replicate m zero) (map reC rs ++ replicate m zero)
  = map cells rs ++ replicate m (cells (zero, zero, zero, zero, zero, zero)).
Proof.
  induction rs as [|r rs IH].
  - cbn. induction m as [|m IHm]; [reflexivity|]. cbn. now rewrite IHm.
  - cbn. rewrite IH. now destruct r as [[[[[V H] C] eV] eH] eC].
Qed.

(** A completed line on arrays with spare rows: the file holds one row per
    delay position, then one all-zero row per spare row of the arrays. *)
Theorem completed_line_file_rows n tset (w w' : Lab F) :
  sized n (lines w) ->
  temperature_line zero fmt ns cfg tset w = (w', Ok tt) ->
  length (Y_COUNTS cfg) <= n /\
  files w' =
    files w ++
      [{| path := out_path tset;
          content :=
            "V,H,C,eV,eH,eC"%string
              :: map (row_text fmt) (readings ns cfg (length (Y_COUNTS cfg)) (gui w))
                 ++ replicate (n - length (Y_COUNTS cfg))
                      (row_text fmt (zero, zero, zero, zero, zero, zero)) |}].
Proof.
  intros Hsz Hrun.
  destruct (temperature_line_summary zero fmt ns cfg n tset w Hsz) as (rs & Hsum).
  cbv zeta in Hsum. rewrite Hrun in Hsum. cbn [fst snd] in Hsum.
  destruct Hsum as (Hl & _ & _ & _ & Hb & Hrs & Hlen & Hfi).
  assert (Hle : length rs <= n).
  { destruct rs as [|r rs]; [cbn; lia | apply Hb; discriminate]. }
  split; [lia|]. rewrite Hfi, Hl. unfold line_file. do 3 f_equal.
  destruct Hsz as (L1 & L2 & L3 & L4 & L5 & L6).
  destruct (record_all_columns rs 0 (reset_lines zero (lines w)))
    as (E1 & E2 & E3 & E4 & E5 & E6).
  rewrite E1, E2, E3, E4, E5, E6.
  cbn [reset_lines line_V line_H line_C line_eV line_eH line_eC]. unfold fill0.
  rewrite L1, L2, L3, L4, L5, L6.
  rewrite !list_inserts_zero_pad by (rewrite length_map; exact Hle).
  rewrite !length_map, vstack_T_padded, map_app, map_map, map_replicate.
  rewrite <- Hrs, Hlen. reflexivity || (unfold row_text; reflexivity).
Qed.

(** A line that fails has recorded [jj] points, has written the home frame
    and the moves to positions 0 to [jj], the last one being the position
    where it failed, and has saved nothing. *)
Theorem aborted_line_frames n tset (w w' : Lab F) e :
  sized n (lines w) ->
  temperature_line zero fmt ns cfg tset w = (w', Raise e) ->
  jj w' < length (Y_COUNTS cfg) /\
  frames w' =
    frames w ++ home_frame :: map move_frame (take (S (jj w')) (Y_COUNTS cfg)) /\
  files w' = files w.
Proof.
  intros Hsz Hrun.
  destruct (delay_loop_summary ns cfg n (Y_COUNTS cfg) (line_start zero cfg tset w))
    as (rs & Hsum).
  { cbn. now apply sized_reset. }
  cbv zeta in Hsum. rewrite temperature_line_run in Hrun.
  destruct (for_each (Y_COUNTS cfg) (delay_step ns cfg) (line_start zero cfg tset w))
    as [w1 [[]|e1]]; [discriminate|].
  injection Hrun as <- <-. cbn [fst snd line_start jj frames files] in Hsum.
  destruct Hsum as (_ & Hjj & Hfr & Hfi & _ & Hlen & _).
  rewrite Hjj, Hfr, Hfi. cbn [Nat.add].
  split; [exact Hlen|]. split; [now rewrite <- app_assoc | reflexivity].
Qed.











End WithValues.

(** Two delay positions on arrays of three rows: two rows of readings and
    one row of zeros. *)
Lemma completed_line_file_rows_witness :
  files (fst (temperature_line 0%Z Fixtures.zfmt (with_meas Fixtures.steady)
                Fixtures.even_travel 45 Fixtures.allocated_even)) =
    [{| path := "11th waist/45.0_pump_ha_det_txikienaena_01.dat";
        content := ["V,H,C,eV,eH,eC"; "10,10,5,0,0,0"; "10,10,5,0,0,0";
                    "0,0,0,0,0,0"]%string |}].
Proof.
  destruct (completed_line_file_rows 0%Z Fixtures.zfmt
              (with_meas Fixtures.steady) Fixtures.even_travel 3 45
              Fixtures.allocated_even
              (fst (temperature_line 0%Z Fixtures.zfmt (with_meas Fixtures.steady)
                      Fixtures.even_travel 45 Fixtures.allocated_even)))
    as [_ Hfiles].
  - vm_compute. repeat split; reflexivity.
  - vm_compute. reflexivity.
  - rewrite Hfiles. vm_compute. reflexivity.
Defined.




(** A line whose second measurement fails: home, then the moves to 0 and
    to 10000. *)
Lemma aborted_line_frames_witness :
  let w' := fst (temperature_line 0%Z Fixtures.zfmt
                   (with_meas (Fixtures.failing_at 1)) Fixtures.small 45
                   Fixtures.allocated) in
  jj w' = 1 /\
  frames w' = [home_frame; move_frame 0; move_frame 10000] /\
  files w' = [].
Proof.
  cbv zeta.
  destruct (aborted_line_frames 0%Z Fixtures.zfmt
              (with_meas (Fixtures.failing_at 1)) Fixtures.small 3 45
              Fixtures.allocated
              (fst (temperature_line 0%Z Fixtures.zfmt
                      (with_meas (Fixtures.failing_at 1)) Fixtures.small 45
                      Fixtures.allocated))
              (MeasDir.invalid_literal "n/a")) as (_ & Hfr & Hfi).
  - vm_compute. repeat split; reflexivity.
  - vm_compute. reflexivity.
  - split; [vm_compute; reflexivity|]. rewrite Hfr, Hfi. vm_compute. auto.
Defined.

End SweepEdges.
